(** * Verification of the part-number extraction and file lookup core of kv_pet

    Shallow embedding of [src/kv_pet/file_lookup.py] and
    [src/kv_pet/pdf_extract.py], and of the parts of [src/kv_pet/app.py]
    that combine them (the extraction worker and the results view).

    Python [str] values are modelled as [String.string]; each [ascii]
    character stands for the code point below 256 with the same number
    (Latin-1), and the Python string methods used by the code
    ([lower], [strip], [rstrip], [split], [replace], [endswith],
    [startswith], [in]) are written out for that range. *)

From Stdlib Require Import List Arith Lia Bool Ascii String.
Import ListNotations.
Open Scope string_scope.
Open Scope list_scope.
Open Scope nat_scope.
Set Warnings "-register-all".

(** ** Python string primitives *)
Module Py.

Definition code (c : ascii) : nat := nat_of_ascii c.

(** [str.isspace] on one character (also the set used by [str.split()],
    [str.strip()] and the regex class [\s]). *)
Definition isspace (c : ascii) : bool :=
  let n := code c in
  ((9 <=? n) && (n <=? 13)) || ((28 <=? n) && (n <=? 32))
  || (n =? 133) || (n =? 160).

(** [str.lower] on one character. *)
Definition lower_char (c : ascii) : ascii :=
  let n := code c in
  if ((65 <=? n) && (n <=? 90))
     || ((192 <=? n) && (n <=? 222) && negb (n =? 215))
  then ascii_of_nat (n + 32) else c.

Fixpoint lower (s : string) : string :=
  match s with
  | EmptyString => EmptyString
  | String c t => String (lower_char c) (lower t)
  end.

(** [s.lstrip(chars)] / [s.rstrip(chars)] for a character predicate. *)
Fixpoint lstrip_by (p : ascii -> bool) (s : string) : string :=
  match s with
  | EmptyString => EmptyString
  | String c t => if p c then lstrip_by p t else s
  end.

Fixpoint rstrip_by (p : ascii -> bool) (s : string) : string :=
  match s with
  | EmptyString => EmptyString
  | String c t =>
      let t' := rstrip_by p t in
      match t' with
      | EmptyString => if p c then EmptyString else String c EmptyString
      | _ => String c t'
      end
  end.

(** [s.strip()], [s.rstrip()] and [s.rstrip("*")]. *)
Definition strip (s : string) : string := rstrip_by isspace (lstrip_by isspace s).
Definition rstrip (s : string) : string := rstrip_by isspace s.
Definition rstrip_star (s : string) : string :=
  rstrip_by (fun c => Ascii.eqb c "*"%char) s.

(** [s.endswith(suffix)]. *)
Definition endswith (s suf : string) : bool :=
  let n := String.length s in
  let m := String.length suf in
  (m <=? n) && String.eqb (substring (n - m) m s) suf.

(** [s.startswith(pre)] and [needle in hay]. *)
Definition startswith (s pre : string) : bool := String.prefix pre s.

Fixpoint contains (needle hay : string) : bool :=
  String.prefix needle hay ||
  match hay with
  | EmptyString => false
  | String _ t => contains needle t
  end.

(** Truthiness of a [str]. *)
Definition truthy (s : string) : bool :=
  match s with EmptyString => false | _ => true end.

(** [s.split()] with no argument: maximal runs of non-whitespace. *)
Fixpoint split_aux (cur : string) (s : string) : list string :=
  match s with
  | EmptyString => if truthy cur then [cur] else []
  | String c t =>
      if isspace c
      then (if truthy cur then [cur] else []) ++ split_aux EmptyString t
      else split_aux (cur ++ String c EmptyString) t
  end.

Definition split (s : string) : list string := split_aux EmptyString s.

(** [sep.join(words)]. *)
Definition join (sep : string) (ws : list string) : string := String.concat sep ws.

(** [s.replace(c, "")] for a one-character pattern [c]. *)
Fixpoint replace_char_empty (c : ascii) (s : string) : string :=
  match s with
  | EmptyString => EmptyString
  | String d t =>
      if Ascii.eqb d c then replace_char_empty c t
      else String d (replace_char_empty c t)
  end.

(** [re.sub("[...]", repl, s)] for a one-character class [cls]. *)
Fixpoint re_sub_class (cls : ascii -> bool) (repl : string) (s : string) : string :=
  match s with
  | EmptyString => EmptyString
  | String c t =>
      if cls c then repl ++ re_sub_class cls repl t
      else String c (re_sub_class cls repl t)
  end.

(** Decimal rendering of a natural number, as [str(n)] / [f"{n}"]. *)
Fixpoint digits_rev (fuel n : nat) : string :=
  match fuel with
  | O => EmptyString
  | S f =>
      let d := String (ascii_of_nat (48 + n mod 10)) EmptyString in
      if n <? 10 then d else digits_rev f (n / 10) ++ d
  end.

Definition str_of_nat (n : nat) : string := digits_rev (S n) n.

End Py.

(** ** [file_lookup.normalize_for_match] and [pdf_extract.normalize_header] *)

(** [re.sub(r"[\s\-_]", "", text.lower())] *)
Definition normalize_for_match (text : string) : string :=
  Py.re_sub_class
    (fun c => Py.isspace c || Ascii.eqb c "-"%char || Ascii.eqb c "_"%char)
    "" (Py.lower text).

(** [None -> ""], else
    [ "".join(text.lower().split()).replace("-", "").replace("_", "") ] *)
Definition normalize_header (text : option string) : string :=
  match text with
  | None => ""
  | Some t =>
      Py.replace_char_empty "_"%char
        (Py.replace_char_empty "-"%char (Py.join "" (Py.split (Py.lower t))))
  end.

(** The normalization as the spec words it: lowercase, then drop every
    whitespace, hyphen and underscore character. *)
Fixpoint drop_chars (p : ascii -> bool) (s : string) : string :=
  match s with
  | EmptyString => EmptyString
  | String c t => if p c then drop_chars p t else String c (drop_chars p t)
  end.

Definition spec_normalize (text : string) : string :=
  drop_chars (fun c => Py.isspace c || Ascii.eqb c "-"%char || Ascii.eqb c "_"%char)
    (Py.lower text).

(** ** [pathlib.Path]: a path is its list of components *)
Module PPath.

Definition Path := list string.

(** [Path.name]: the last component ([""] for the root). *)
Definition name (p : Path) : string := last p "".

(** [str.rfind(c)], [None] standing for [-1]. *)
Fixpoint rfind_aux (c : ascii) (s : string) (i : nat) (acc : option nat) : option nat :=
  match s with
  | EmptyString => acc
  | String d t => rfind_aux c t (S i) (if Ascii.eqb d c then Some i else acc)
  end.

Definition rfind (c : ascii) (s : string) : option nat := rfind_aux c s 0 None.

(** [Path.suffix] and [Path.stem] (CPython 3.12 pathlib):
    [i = name.rfind('.')]; if [0 < i < len(name) - 1] the suffix is
    [name[i:]] and the stem [name[:i]], else the suffix is empty and
    the stem is the whole name. *)
Definition split_point (nm : string) : option nat :=
  match rfind "."%char nm with
  | Some i => if (0 <? i) && (i <? String.length nm - 1) then Some i else None
  | None => None
  end.

Definition suffix (p : Path) : string :=
  let nm := name p in
  match split_point nm with
  | Some i => substring i (String.length nm - i) nm
  | None => ""
  end.

Definition stem (p : Path) : string :=
  let nm := name p in
  match split_point nm with
  | Some i => substring 0 i nm
  | None => nm
  end.

End PPath.

Import PPath.

(** ** The revision regex [_r(?:ev)?(\d+)] *)
Module Rev.

Definition is_digit (c : ascii) : bool :=
  (48 <=? nat_of_ascii c) && (nat_of_ascii c <=? 57).

(** Greedy [\d+]... as (digits, rest); [\d] is [0-9] below code point 256. *)
Fixpoint span_digits (s : string) : string * string :=
  match s with
  | EmptyString => (EmptyString, EmptyString)
  | String c t =>
      if is_digit c then let (d, r) := span_digits t in (String c d, r)
      else (EmptyString, s)
  end.

(** [\d+] at the start of [s]. *)
Definition digits1 (s : string) : option (string * string) :=
  match span_digits s with
  | (EmptyString, _) => None
  | (d, r) => Some (d, r)
  end.

(** An anchored match of [_r(?:ev)?(\d+)] at the start of [s]: the
    optional group is tried first, then without it (backtracking);
    the result is the captured digits and the text after the match. *)
Definition match_at (s : string) : option (string * string) :=
  match s with
  | String "_" (String "r" t) =>
      match
        match t with
        | String "e" (String "v" u) => digits1 u
        | _ => None
        end
      with
      | Some m => Some m
      | None => digits1 t
      end
  | _ => None
  end.

(** [re.search]: the leftmost match, as its group 1. *)
Fixpoint search (s : string) : option string :=
  match s with
  | EmptyString => None
  | String _ t =>
      match match_at s with
      | Some (d, _) => Some d
      | None => search t
      end
  end.

(** [re.sub(pattern, "", s)]: matches are removed left to right; the
    scan resumes after each match.  The fuel [String.length s] is always
    enough, since every step consumes at least one character. *)
Fixpoint sub_fuel (fuel : nat) (s : string) : string :=
  match fuel with
  | O => s
  | S f =>
      match s with
      | EmptyString => EmptyString
      | String c t =>
          match match_at s with
          | Some (_, rest) => sub_fuel f rest
          | None => String c (sub_fuel f t)
          end
      end
  end.

Definition sub (s : string) : string := sub_fuel (String.length s) s.

(** [int(digits)] *)
Fixpoint int_acc (acc : nat) (s : string) : nat :=
  match s with
  | EmptyString => acc
  | String c t => int_acc (acc * 10 + (nat_of_ascii c - 48)) t
  end.

Definition int_of_digits (s : string) : nat := int_acc 0 s.

End Rev.

(** ** [file_lookup.py] *)
Module FileLookup.

(** [MatchResult] *)
Record MatchResult := {
  pdf_files : list Path;
  model_files : list Path;
  no_pdf_required : bool;
  status : string
}.

(** [extract_revision_number] *)
Definition extract_revision_number (filename : string) : option nat :=
  match Rev.search (Py.lower filename) with
  | Some d => Some (Rev.int_of_digits d)
  | None => None
  end.

(** [get_base_name_without_revision] *)
Definition get_base_name_without_revision (filename : string) : string :=
  Rev.sub (Py.lower filename).

(** The grouping dict of [collapse_to_latest_revision] (insertion
    ordered): [if base not in groups: groups[base] = []] then
    [groups[base].append((rev, file_path))]. *)
Definition Groups := list (string * list (option nat * Path)).

Fixpoint add_item (base : string) (item : option nat * Path) (gs : Groups) : Groups :=
  match gs with
  | [] => [(base, [item])]
  | (k, items) :: gs' =>
      if String.eqb k base then (k, items ++ [item]) :: gs'
      else (k, items) :: add_item base item gs'
  end.

Definition group_step (gs : Groups) (file_path : Path) : Groups :=
  let stem := stem file_path in
  let base := get_base_name_without_revision stem in
  let rev := extract_revision_number stem in
  add_item base (rev, file_path) gs.

Definition build_groups (files : list Path) : Groups :=
  fold_left group_step files [].

(** [list.sort(key=lambda x: x[0], reverse=True)]: a stable sort on
    decreasing revision (elements with equal keys keep their order). *)
Fixpoint insert_desc (x : nat * Path) (l : list (nat * Path)) : list (nat * Path) :=
  match l with
  | [] => [x]
  | y :: l' => if fst y <? fst x then x :: y :: l' else y :: insert_desc x l'
  end.

Definition sort_desc (l : list (nat * Path)) : list (nat * Path) :=
  fold_left (fun acc x => insert_desc x acc) l [].

(** [with_rev = [(r, p) for r, p in items if r is not None]] *)
Fixpoint with_rev (items : list (option nat * Path)) : list (nat * Path) :=
  match items with
  | [] => []
  | (Some r, p) :: t => (r, p) :: with_rev t
  | (None, _) :: t => with_rev t
  end.

(** [without_rev = [p for r, p in items if r is None]] *)
Fixpoint without_rev (items : list (option nat * Path)) : list Path :=
  match items with
  | [] => []
  | (None, p) :: t => p :: without_rev t
  | (Some _, _) :: t => without_rev t
  end.

(** The body of the loop over [groups.items()]. *)
Definition process_group (items : list (option nat * Path)) : list Path :=
  match sort_desc (with_rev items) with
  | (_, p) :: _ => [p]
  | [] => without_rev items
  end.

(** [collapse_to_latest_revision] *)
Definition collapse_to_latest_revision (files : list Path) : list Path :=
  match files with
  | [] => []
  | _ => flat_map (fun g => process_group (snd g)) (build_groups files)
  end.

(** The extension filter of [find_matching_files]:
    [if file_extensions: if file_path.suffix.lower() not in
     [e.lower() for e in file_extensions]: continue]. *)
Definition passes_extensions (file_extensions : option (list string)) (file_path : Path) : bool :=
  match file_extensions with
  | None | Some [] => true
  | Some exts =>
      existsb (String.eqb (Py.lower (suffix file_path))) (map Py.lower exts)
  end.

Definition mode_matches (match_mode normalized_pn normalized_stem : string) : bool :=
  if String.eqb match_mode "exact" then String.eqb normalized_stem normalized_pn
  else if String.eqb match_mode "startswith" then Py.startswith normalized_stem normalized_pn
  else Py.contains normalized_pn normalized_stem.

(** [find_matching_files] *)
Definition find_matching_files (part_number : string) (files : list Path)
    (match_mode : string) (file_extensions : option (list string)) : list Path :=
  let clean_pn := Py.strip (Py.rstrip_star part_number) in
  let normalized_pn := normalize_for_match clean_pn in
  filter (fun file_path =>
            passes_extensions file_extensions file_path
            && mode_matches match_mode normalized_pn (normalize_for_match (stem file_path)))
         files.

Definition model_exts : list string := [".ipt"; ".iam"].
Definition pdf_exts : list string := [".pdf"].

(** [lookup_part_number] *)
Definition lookup_part_number (part_number : string) (files : list Path)
    (match_mode : string) : MatchResult :=
  if Py.endswith (Py.rstrip part_number) "*" then
    {| pdf_files := [];
       model_files := find_matching_files part_number files match_mode (Some model_exts);
       no_pdf_required := true;
       status := "No PDF required" |}
  else
    let pdfs := collapse_to_latest_revision
                  (find_matching_files part_number files match_mode (Some pdf_exts)) in
    let models := find_matching_files part_number files match_mode (Some model_exts) in
    {| pdf_files := pdfs;
       model_files := models;
       no_pdf_required := false;
       status := match pdfs with
                 | [] => "No PDF match"
                 | _ => Py.str_of_nat (List.length pdfs) ++ " PDF(s)"
                 end |}.

End FileLookup.

(** ** The file system seen by [scan_folder]

    A directory tree: regular files, other non-directory entries (devices,
    sockets, fifos) and directories listing named entries. *)
Module FS.

Inductive node : Type :=
| RegFile : node
| OtherFile : node
| Dir : list (string * node) -> node.

Fixpoint find_entry (x : string) (es : list (string * node)) : option node :=
  match es with
  | [] => None
  | (y, n) :: es' => if String.eqb x y then Some n else find_entry x es'
  end.

(** Path resolution from the root. *)
Fixpoint resolve (n : node) (p : Path) : option node :=
  match p with
  | [] => Some n
  | x :: rest =>
      match n with
      | Dir es => match find_entry x es with
                  | Some m => resolve m rest
                  | None => None
                  end
      | _ => None
      end
  end.

(** [Path.exists()], [Path.is_dir()], [Path.is_file()]. *)
Definition exists_ (root : node) (p : Path) : bool :=
  match resolve root p with Some _ => true | None => false end.

Definition is_dir (root : node) (p : Path) : bool :=
  match resolve root p with Some (Dir _) => true | _ => false end.

Definition is_file (root : node) (p : Path) : bool :=
  match resolve root p with Some RegFile => true | _ => false end.

(** Entry names of a directory relative to it, every level below it
    ([rglob("*")], here in pre-order; the code does not depend on the
    order) and only the first level ([iterdir()]). *)
Fixpoint walk (n : node) : list Path :=
  match n with
  | Dir es =>
      (fix go (es : list (string * node)) : list Path :=
         match es with
         | [] => []
         | (x, m) :: es' => [x] :: map (cons x) (walk m) ++ go es'
         end) es
  | _ => []
  end.

Definition children (n : node) : list Path :=
  match n with
  | Dir es => map (fun e => [fst e]) es
  | _ => []
  end.

Definition rglob (root : node) (folder : Path) : list Path :=
  match resolve root folder with
  | Some n => map (app folder) (walk n)
  | None => []
  end.

Definition iterdir (root : node) (folder : Path) : list Path :=
  match resolve root folder with
  | Some n => map (app folder) (children n)
  | None => []
  end.

Inductive OSError := FileNotFoundError | NotADirectoryError.

(** [scan_folder] *)
Definition scan_folder (root : node) (folder : Path) (recursive : bool)
    : list Path + OSError :=
  if negb (exists_ root folder) then inr FileNotFoundError
  else if negb (is_dir root folder) then inr NotADirectoryError
  else if recursive then inl (filter (is_file root) (rglob root folder))
  else inl (filter (is_file root) (iterdir root folder)).

End FS.

(** ** [pdf_extract.py] *)
Module PdfExtract.

Definition Cell := option string.
Definition Row := list Cell.
Definition Table := list Row.

(** [PartRow] *)
Record PartRow := {
  part_number : string;
  title : string;
  description : string;
  material : string;
  mass : string;
  qty : string
}.

(** [COLUMN_ALIASES] *)
Definition COLUMN_ALIASES : list (string * list string) :=
  [("partnumber", ["partnumber"; "partno"; "pn"; "part"]);
   ("title", ["title"; "name"]);
   ("description", ["description"; "desc"]);
   ("material", ["material"; "mat"]);
   ("mass", ["mass"; "weight"; "wt"]);
   ("qty", ["qty"; "quantity"; "count"])].

(** [dict.get(key, default)] on an association list. *)
Fixpoint dict_get {A} (d : list (string * A)) (k : string) (default : A) : A :=
  match d with
  | [] => default
  | (k', v) :: d' => if String.eqb k k' then v else dict_get d' k default
  end.

Fixpoint find_index_from (aliases : list string) (i : nat) (headers : Row) : option nat :=
  match headers with
  | [] => None
  | h :: hs =>
      if existsb (String.eqb (normalize_header h)) aliases then Some i
      else find_index_from aliases (S i) hs
  end.

(** [find_column_index] *)
Definition find_column_index (headers : Row) (column_name : string) : option nat :=
  let aliases := dict_get COLUMN_ALIASES column_name [column_name] in
  find_index_from aliases 0 headers.

(** [find_part_number_column] *)
Definition find_part_number_column (headers : Row) : option nat :=
  find_column_index headers "partnumber".

Fixpoint find_header_row_from (i : nat) (table : Table) : option nat * option nat :=
  match table with
  | [] => (None, None)
  | row :: rows =>
      match find_part_number_column row with
      | Some c => (Some i, Some c)
      | None => find_header_row_from (S i) rows
      end
  end.

(** [find_header_row] *)
Definition find_header_row (table : Table) : option nat * option nat :=
  find_header_row_from 0 table.

Definition header_keywords : list string :=
  ["part"; "number"; "pos"; "title"; "description";
   "material"; "mass"; "qty"; "quantity"; "item"].

(** [_is_header_like] *)
Definition is_header_like (value : string) : bool :=
  let normalized := Py.strip (Py.lower value) in
  existsb (String.eqb normalized) header_keywords || (50 <? String.length normalized).

(** [_get_cell_value] *)
Definition get_cell_value (row : Row) (idx : option nat) : string :=
  match idx with
  | None => ""
  | Some i =>
      if List.length row <=? i then ""
      else match nth i row None with
           | Some v => if Py.truthy v then Py.strip v else ""
           | None => ""
           end
  end.

(** The [col_indices] dict. *)
Record ColIndices := {
  ci_part_number : nat;
  ci_title : option nat;
  ci_description : option nat;
  ci_material : option nat;
  ci_mass : option nat;
  ci_qty : option nat
}.

Definition col_indices_of (header_row : Row) (pn_col_idx : nat) : ColIndices :=
  {| ci_part_number := pn_col_idx;
     ci_title := find_column_index header_row "title";
     ci_description := find_column_index header_row "description";
     ci_material := find_column_index header_row "material";
     ci_mass := find_column_index header_row "mass";
     ci_qty := find_column_index header_row "qty" |}.

(** [x or ""] on a [str]. *)
Definition or_empty (s : string) : string := if Py.truthy s then s else "".

(** The loop [for row in data_rows: ...]. *)
Fixpoint emit_rows (ci : ColIndices) (data_rows : Table) : list PartRow :=
  match data_rows with
  | [] => []
  | row :: rows =>
      let pn_value := get_cell_value row (Some (ci_part_number ci)) in
      if Py.truthy pn_value && negb (is_header_like pn_value) then
        {| part_number := pn_value;
           title := get_cell_value row (ci_title ci);
           description := get_cell_value row (ci_description ci);
           material := get_cell_value row (ci_material ci);
           mass := get_cell_value row (ci_mass ci);
           qty := get_cell_value row (ci_qty ci) |} :: emit_rows ci rows
      else emit_rows ci rows
  end.

(** [extract_part_rows_from_table] *)
Definition extract_part_rows_from_table (table : Table) : list PartRow :=
  if (match table with [] => true | _ => false end) || (List.length table <? 2) then []
  else
    match find_header_row table with
    | (Some header_row_idx, Some pn_col_idx) =>
        let header_row := nth header_row_idx table [] in
        let ci := col_indices_of header_row pn_col_idx in
        let above := firstn header_row_idx table in
        let data_rows :=
          if negb (existsb (fun row => Py.truthy (get_cell_value row (Some pn_col_idx)))
                     (filter (fun row => negb (is_header_like
                                 (or_empty (get_cell_value row (Some pn_col_idx)))))
                        above))
          then skipn (S header_row_idx) table
          else above in
        emit_rows ci data_rows
    | _ => []
    end.

End PdfExtract.

(** ** Python dicts keyed by [str], insertion ordered *)
Module PyDict.

(** [d[k] = v]: an existing key keeps its position, a new key goes last. *)
Fixpoint set {A} (d : list (string * A)) (k : string) (v : A) : list (string * A) :=
  match d with
  | [] => [(k, v)]
  | (k', v') :: d' => if String.eqb k' k then (k', v) :: d' else (k', v') :: set d' k v
  end.

(** [d.get(k)], [None] when the key is missing. *)
Fixpoint get {A} (d : list (string * A)) (k : string) : option A :=
  match d with
  | [] => None
  | (k', v) :: d' => if String.eqb k' k then Some v else get d' k
  end.

End PyDict.

(** ** The folder-level lookups of [file_lookup.py] *)
Module Lookups.
Import FileLookup.

(** [lookup_part_numbers]: [scan_folder] raises before any lookup. *)
Definition lookup_part_numbers (root : FS.node) (part_numbers : list string)
    (folder_path : Path) (recursive : bool) (match_mode : string)
    : list (string * MatchResult) + FS.OSError :=
  match FS.scan_folder root folder_path recursive with
  | inr e => inr e
  | inl files =>
      inl (fold_left (fun results pn =>
                        PyDict.set results pn (lookup_part_number pn files match_mode))
                     part_numbers [])
  end.

(** [lookup_part_numbers_legacy]: no extension filter, no collapsing. *)
Definition lookup_part_numbers_legacy (root : FS.node) (part_numbers : list string)
    (folder_path : Path) (recursive : bool) (match_mode : string)
    : list (string * list Path) + FS.OSError :=
  match FS.scan_folder root folder_path recursive with
  | inr e => inr e
  | inl files =>
      inl (fold_left (fun results pn =>
                        PyDict.set results pn (find_matching_files pn files match_mode None))
                     part_numbers [])
  end.

End Lookups.

(** ** The document-level functions of [pdf_extract.py] *)
Module Documents.
Import PdfExtract.

(** [extract_part_numbers_from_table] *)
Definition extract_part_numbers_from_table (table : Table) : list string :=
  map part_number (extract_part_rows_from_table table).

(** The loop of [extract_part_rows] over the candidate tables, taken in
    the order the code sorts them into (by weighted bottom edge, then
    right edge, descending); each candidate is the grid its
    [table.extract()] returns. *)
Fixpoint first_table_rows (candidates : list Table) : list PartRow :=
  match candidates with
  | [] => []
  | extracted :: rest =>
      match extracted with
      | [] => first_table_rows rest
      | _ =>
          match extract_part_rows_from_table extracted with
          | [] => first_table_rows rest
          | part_rows => part_rows
          end
      end
  end.

(** What the per-document call of [extract_part_numbers_batch] does: it
    returns the part numbers or raises. *)
Inductive Outcome :=
| Returned : list string -> Outcome
| Raised : Outcome.

(** [extract_part_numbers_batch], the per-document outcome given by
    [outcome], results keyed by [path.name]. *)
Definition extract_part_numbers_batch (outcome : Path -> Outcome) (pdf_paths : list Path)
    : list (string * list string) :=
  fold_left (fun results path =>
               PyDict.set results (name path)
                 (match outcome path with
                  | Returned part_numbers => part_numbers
                  | Raised => []
                  end))
            pdf_paths [].

End Documents.

(** ** The extraction worker and the results view of [app.py] *)
Module App.
Import FileLookup PdfExtract.

(** What [extract_part_rows(pdf_path)] does for one PDF: it returns rows
    or raises. *)
Inductive RowsOutcome :=
| RowsReturned : list PartRow -> RowsOutcome
| RowsRaised : RowsOutcome.

(** [(None, MatchResult(status="Error"))] *)
Definition error_entry : option PartRow * MatchResult :=
  (None, {| pdf_files := []; model_files := []; no_pdf_required := false; status := "Error" |}).

(** [self.results[str(pdf_path)]] as [_extraction_worker] fills it for
    one PDF: [matches[part_row.part_number] = (part_row, match_result)]
    for every row, or the single ["ERROR"] entry when extraction raises.
    [lookup_part_number] is called with its default mode "contains". *)
Definition pdf_matches (files : list Path) (outcome : RowsOutcome)
    : list (string * (option PartRow * MatchResult)) :=
  match outcome with
  | RowsReturned part_rows =>
      fold_left (fun matches part_row =>
                   PyDict.set matches (part_number part_row)
                     (Some part_row,
                      lookup_part_number (part_number part_row) files "contains"))
                part_rows []
  | RowsRaised => [("ERROR", error_entry)]
  end.

(** The lines [_display_results] inserts under one PDF node: the line
    "No tables found", the line "Error processing PDF", or a part line with
    its nine column values. *)
Inductive Line :=
| NoTablesLine : Line
| ErrorLine : Line
| PartLine : list string -> Line.

Definition pdf_display (mr : MatchResult) : string :=
  if no_pdf_required mr then ""
  else match pdf_files mr with
       | [] => ""
       | p :: _ =>
           name p ++ (if 1 <? List.length (pdf_files mr)
                      then " (+" ++ Py.str_of_nat (List.length (pdf_files mr) - 1) ++ ")"
                      else "")
       end.

Definition print_display (mr : MatchResult) : string :=
  if no_pdf_required mr then ""
  else match pdf_files mr with [] => "" | _ => "[Print]" end.

Definition model_display (mr : MatchResult) : string :=
  match model_files mr with [] => "" | _ => "[3D]" end.

(** [part_row.title if part_row else ""] and the like: a [PartRow] is
    always truthy. *)
Definition row_field (f : PartRow -> string) (part_row : option PartRow) : string :=
  match part_row with Some r => f r | None => "" end.

Definition display_lines (matches : list (string * (option PartRow * MatchResult))) : list Line :=
  match matches with
  | [] => [NoTablesLine]
  | _ =>
      map (fun e =>
             let '(part_number, (part_row, mr)) := e in
             if String.eqb part_number "ERROR" then ErrorLine
             else PartLine [part_number; row_field title part_row;
                            row_field description part_row; row_field mass part_row;
                            row_field qty part_row; pdf_display mr; print_display mr;
                            status mr; model_display mr])
          matches
  end.

End App.

(** ** Statements of the spec, worded as the spec words them *)
Module SpecWords.
Import FileLookup PdfExtract.

(** A part-number cell value that counts as real data. *)
Definition real_pn (v : string) : bool := Py.truthy v && negb (is_header_like v).

(** One [PartRow] built from a data row under a column map. *)
Definition row_of (ci : ColIndices) (row : Row) : PartRow :=
  {| part_number := get_cell_value row (Some (ci_part_number ci));
     title := get_cell_value row (ci_title ci);
     description := get_cell_value row (ci_description ci);
     material := get_cell_value row (ci_material ci);
     mass := get_cell_value row (ci_mass ci);
     qty := get_cell_value row (ci_qty ci) |}.

(** Row extraction of §4.4 for a header at row [h], part-number column [c]. *)
Definition rows_from_header (table : Table) (h c : nat) : list PartRow :=
  let ci := col_indices_of (nth h table []) c in
  let above := firstn h table in
  let chosen :=
    if existsb (fun row => real_pn (get_cell_value row (Some c))) above
    then above else skipn (S h) table in
  map (row_of ci) (filter (fun row => real_pn (get_cell_value row (Some c))) chosen).

(** The status of §4.8 as a function of the other three fields. *)
Definition status_of (no_pdf : bool) (pdfs : list Path) (models : list Path) : string :=
  if no_pdf then "No PDF required"
  else match pdfs with
       | [] => "No PDF match"
       | _ => Py.str_of_nat (List.length pdfs) ++ " PDF(s)"
       end.

(** Query cleaning of §4.6: surrounding whitespace and trailing
    asterisks removed. *)
Fixpoint strip_query_fuel (fuel : nat) (q : string) : string :=
  match fuel with
  | O => q
  | S f =>
      let q' := Py.rstrip_star (Py.strip q) in
      if String.eqb q' q then q else strip_query_fuel f q'
  end.

Definition strip_query (q : string) : string := strip_query_fuel (String.length q) q.

End SpecWords.

(** ** Auxiliary views of [collapse_to_latest_revision] used by the proofs *)
Module CollapseView.
Import FileLookup.

Definition base_key (f : Path) : string := get_base_name_without_revision (stem f).
Definition revision (f : Path) : option nat := extract_revision_number (stem f).
Definition item (f : Path) : option nat * Path := (revision f, f).

(** The members of the group of key [k], in input order. *)
Definition members (k : string) (files : list Path) : list Path :=
  filter (fun f => String.eqb (base_key f) k) files.

(** The distinct keys in order of first occurrence. *)
Definition uniq_keys (files : list Path) : list string :=
  fold_left (fun ks f => if existsb (String.eqb (base_key f)) ks then ks
                         else ks ++ [base_key f]) files [].

End CollapseView.

(** * Proofs *)

(** ** Normalization *)

Lemma re_sub_class_empty cls s : Py.re_sub_class cls "" s = drop_chars cls s.
Proof. induction s as [|c t IH]; simpl; [reflexivity|]. destruct (cls c); simpl; congruence. Qed.

Lemma replace_char_empty_drop c s :
  Py.replace_char_empty c s = drop_chars (fun d => Ascii.eqb d c) s.
Proof. induction s as [|d t IH]; simpl; [reflexivity|]. destruct (Ascii.eqb d c); congruence. Qed.

Lemma drop_chars_drop_chars p q s :
  drop_chars p (drop_chars q s) = drop_chars (fun c => q c || p c) s.
Proof.
  induction s as [|c t IH]; simpl; [reflexivity|].
  destruct (q c); simpl; [exact IH|]. destruct (p c); simpl; congruence.
Qed.

Lemma drop_chars_ext p q s : (forall c, p c = q c) -> drop_chars p s = drop_chars q s.
Proof. intros E. induction s as [|c t IH]; simpl; [reflexivity|]. rewrite E. destruct (q c); congruence. Qed.

Lemma str_app_nil_r (s : string) : (s ++ "")%string = s.
Proof. induction s; simpl; congruence. Qed.

Lemma str_app_assoc (a b c : string) : ((a ++ b) ++ c)%string = (a ++ (b ++ c))%string.
Proof. induction a; simpl; congruence. Qed.

Lemma concat_empty_cons (x : string) (l : list string) :
  String.concat "" (x :: l) = (x ++ String.concat "" l)%string.
Proof. destruct l; simpl; [rewrite str_app_nil_r|]; reflexivity. Qed.

Lemma concat_empty_app (l1 l2 : list string) :
  String.concat "" (l1 ++ l2) = (String.concat "" l1 ++ String.concat "" l2)%string.
Proof.
  induction l1 as [|x l1 IH]; [reflexivity|].
  rewrite <- app_comm_cons, !concat_empty_cons, IH, str_app_assoc. reflexivity.
Qed.

Lemma join_split_aux cur s :
  Py.join "" (Py.split_aux cur s) = (cur ++ drop_chars Py.isspace s)%string.
Proof.
  unfold Py.join. revert cur. induction s as [|c t IH]; intros cur; simpl.
  - destruct cur; simpl; [reflexivity|]. rewrite str_app_nil_r. reflexivity.
  - destruct (Py.isspace c).
    + rewrite concat_empty_app, IH. destruct cur; reflexivity.
    + rewrite IH, str_app_assoc. reflexivity.
Qed.

(** C8: header-alias comparison and filename matching share one
    normalization: [normalize_header] and [normalize_for_match] agree on
    every string, and both lowercase the text and drop every whitespace,
    hyphen and underscore character; "PART-NUMBER" and "Part Number" both
    normalize to "partnumber". *)
Theorem normalizations_agree :
  (forall s, normalize_header (Some s) = normalize_for_match s
             /\ normalize_for_match s = spec_normalize s)
  /\ normalize_for_match "PART-NUMBER" = "partnumber"
  /\ normalize_header (Some "PART-NUMBER") = "partnumber"
  /\ normalize_for_match "Part Number" = "partnumber"
  /\ normalize_header (Some "Part Number") = "partnumber".
Proof.
  split; [|repeat split; reflexivity].
  intros s. unfold normalize_header, normalize_for_match, spec_normalize.
  unfold Py.split. rewrite re_sub_class_empty, !replace_char_empty_drop, (join_split_aux "" (Py.lower s)).
  simpl. rewrite !drop_chars_drop_chars. split; [|reflexivity].
  apply drop_chars_ext. intros c. rewrite orb_assoc. reflexivity.
Qed.

(** ** Matcher *)

Lemma prefix_refl (s : string) : String.prefix s s = true.
Proof. induction s as [|a t IH]; simpl; [reflexivity|]. destruct (ascii_dec a a); congruence. Qed.

Lemma prefix_empty (s : string) : String.prefix "" s = true.
Proof. destruct s; reflexivity. Qed.

Lemma contains_of_prefix (n h : string) : String.prefix n h = true -> Py.contains n h = true.
Proof. intros H. destruct h; cbn [Py.contains]; rewrite H; reflexivity. Qed.

Lemma filter_incl_impl {A} (f g : A -> bool) (l : list A) :
  (forall x, f x = true -> g x = true) -> incl (filter f l) (filter g l).
Proof.
  intros Hfg x Hx. apply filter_In in Hx as [Hin Hf]. apply filter_In. auto.
Qed.

(** C6: for a fixed query, file list and extension filter, the files
    matched in mode "exact" are among those matched in mode "startswith",
    and those are among the files matched in mode "contains". *)
Theorem match_modes_nested :
  forall (q : string) (files : list Path) (exts : option (list string)),
    incl (FileLookup.find_matching_files q files "exact" exts)
         (FileLookup.find_matching_files q files "startswith" exts)
    /\ incl (FileLookup.find_matching_files q files "startswith" exts)
            (FileLookup.find_matching_files q files "contains" exts).
Proof.
  intros q files exts. unfold FileLookup.find_matching_files, FileLookup.mode_matches.
  split; apply filter_incl_impl; intros f Hf;
    apply andb_prop in Hf as [He Hm]; rewrite He; simpl in *.
  - apply String.eqb_eq in Hm. rewrite Hm. apply prefix_refl.
  - exact (contains_of_prefix _ _ Hm).
Qed.

(** C10: a query whose comparison key is empty (such as "*" or a blank
    string) matches, in the default "contains" mode and in "startswith"
    mode, every file that passes the extension filter; in particular
    [lookup_part_number "*" files "contains"] returns as model files every
    file whose lowercased suffix is ".ipt" or ".iam". *)
Theorem empty_key_matches_all :
  forall (q : string) (files : list Path) (exts : option (list string)),
    normalize_for_match (Py.strip (Py.rstrip_star q)) = "" ->
    FileLookup.find_matching_files q files "contains" exts
      = filter (FileLookup.passes_extensions exts) files
    /\ FileLookup.find_matching_files q files "startswith" exts
      = filter (FileLookup.passes_extensions exts) files
    /\ FileLookup.model_files (FileLookup.lookup_part_number "*" files "contains")
      = filter (fun f => existsb (String.eqb (Py.lower (suffix f))) [".ipt"; ".iam"]) files.
Proof.
  intros q files exts Hq. unfold FileLookup.find_matching_files. rewrite Hq.
  split; [|split].
  - apply filter_ext. intros f. unfold FileLookup.mode_matches. simpl.
    destruct (normalize_for_match (stem f)); simpl; rewrite ?andb_true_r; reflexivity.
  - apply filter_ext. intros f. unfold FileLookup.mode_matches. simpl.
    destruct (normalize_for_match (stem f)); simpl; rewrite ?andb_true_r; reflexivity.
  - simpl. apply filter_ext. intros f. unfold FileLookup.mode_matches. simpl.
    destruct (normalize_for_match (stem f)); simpl; rewrite ?andb_true_r; reflexivity.
Qed.

Lemma empty_key_matches_all_witness :
  normalize_for_match (Py.strip (Py.rstrip_star "  ")) = ""
  /\ FileLookup.find_matching_files "  " [["d"; "A.ipt"]; ["d"; "b.PDF"]] "contains" None
     = filter (FileLookup.passes_extensions None) [["d"; "A.ipt"]; ["d"; "b.PDF"]].
Proof.
  split; [reflexivity|].
  apply (empty_key_matches_all "  " [["d"; "A.ipt"]; ["d"; "b.PDF"]] None); reflexivity.
Defined.

(** ** MatchResultBuilder *)

(** C7: every [MatchResult] returned by [lookup_part_number] has no PDF
    files when [no_pdf_required] is set, and its status is determined by
    the other three fields: "No PDF required" when [no_pdf_required],
    otherwise "<N> PDF(s)" for N PDF files when there are some, and
    "No PDF match" when there are none. *)
Theorem lookup_result_invariants :
  forall (part_number : string) (files : list Path) (match_mode : string),
    let r := FileLookup.lookup_part_number part_number files match_mode in
    (FileLookup.no_pdf_required r = true -> FileLookup.pdf_files r = [])
    /\ FileLookup.status r
       = SpecWords.status_of (FileLookup.no_pdf_required r)
           (FileLookup.pdf_files r) (FileLookup.model_files r).
Proof.
  intros pn files mode r. subst r. unfold FileLookup.lookup_part_number.
  destruct (Py.endswith (Py.rstrip pn) "*"); simpl.
  - split; reflexivity.
  - split; [discriminate|].
    unfold SpecWords.status_of.
    destruct (FileLookup.collapse_to_latest_revision _); reflexivity.
Qed.

(** The no-PDF-required branch: whatever the files, a part number whose
    right-trimmed text ends in "*" gets no PDF files, the status
    "No PDF required", and as model files the Matcher's answer for the raw
    part number over the model extensions. *)
Lemma lookup_starred_branch :
  forall (part_number : string) (files : list Path) (match_mode : string),
    Py.endswith (Py.rstrip part_number) "*" = true ->
    let r := FileLookup.lookup_part_number part_number files match_mode in
    FileLookup.no_pdf_required r = true
    /\ FileLookup.pdf_files r = []
    /\ FileLookup.status r = "No PDF required"
    /\ FileLookup.model_files r
       = FileLookup.find_matching_files part_number files match_mode
           (Some FileLookup.model_exts).
Proof.
  intros pn files mode H r. subst r. unfold FileLookup.lookup_part_number. rewrite H.
  repeat split; reflexivity.
Qed.

(** C4 (failing input): for the query "ABC* " the Matcher strips the
    trailing asterisks before the surrounding whitespace, so the asterisk
    stays in the comparison key "abc*": "ABC.ipt" is not matched, while the
    query with surrounding whitespace and trailing asterisks removed, "ABC",
    matches it. *)
Theorem matcher_keeps_star_before_space :
  SpecWords.strip_query "ABC* " = "ABC"
  /\ normalize_for_match (Py.strip (Py.rstrip_star "ABC* ")) = "abc*"
  /\ FileLookup.find_matching_files "ABC* " [["d"; "ABC.ipt"]] "contains" None = []
  /\ FileLookup.find_matching_files "ABC" [["d"; "ABC.ipt"]] "contains" None
     = [["d"; "ABC.ipt"]].
Proof. repeat split; reflexivity. Qed.

(** C3 (failing input): [lookup_part_number "ABC* "] takes the
    no-PDF-required branch (no PDF files, status "No PDF required") but
    its model files are empty, while the Matcher on the asterisk-stripped
    query "ABC" over the model extensions finds "ABC.ipt". *)
Theorem starred_lookup_misses_models :
  let r := FileLookup.lookup_part_number "ABC* " [["d"; "ABC.ipt"]] "contains" in
  FileLookup.no_pdf_required r = true
  /\ FileLookup.status r = "No PDF required"
  /\ FileLookup.pdf_files r = []
  /\ FileLookup.model_files r = []
  /\ FileLookup.find_matching_files "ABC" [["d"; "ABC.ipt"]] "contains"
       (Some FileLookup.model_exts) = [["d"; "ABC.ipt"]].
Proof. repeat split; reflexivity. Qed.

(** ** FileIndex *)
Section Scan.
Import FS.

Lemma resolve_app (n : node) (p s : Path) :
  resolve n (p ++ s) = match resolve n p with Some m => resolve m s | None => None end.
Proof.
  revert n. induction p as [|x p IH]; intros n; simpl; [reflexivity|].
  destruct n as [| |es]; try reflexivity.
  destruct (find_entry x es); [apply IH|reflexivity].
Qed.

Lemma walk_cons (x : string) (m : node) (es : list (string * node)) :
  walk (Dir ((x, m) :: es)) = [x] :: map (cons x) (walk m) ++ walk (Dir es).
Proof. reflexivity. Qed.

Lemma walk_nonempty (n : node) (s : Path) : In s (walk n) -> s <> [].
Proof.
  destruct n as [| |es]; [simpl; tauto|simpl; tauto|].
  induction es as [|[x m] es IH]; [simpl; tauto|].
  rewrite walk_cons. intros [<-|Hin]; [discriminate|].
  apply in_app_or in Hin as [Hin|Hin].
  - apply in_map_iff in Hin as (t & <- & _). discriminate.
  - exact (IH Hin).
Qed.

Lemma find_entry_in (x : string) (es : list (string * node)) (m : node) :
  find_entry x es = Some m -> In x (map fst es).
Proof.
  induction es as [|[y k] es IH]; simpl; [discriminate|].
  destruct (String.eqb_spec x y); [left; congruence|]. intros H; right; auto.
Qed.

Lemma walk_dir_in (es : list (string * node)) (x : string) (m : node) (t : Path) :
  find_entry x es = Some m -> (t = [] \/ In t (walk m)) -> In (x :: t) (walk (Dir es)).
Proof.
  induction es as [|[y k] es IH]; [simpl; discriminate|]. rewrite walk_cons. cbn [find_entry].
  destruct (String.eqb_spec x y) as [->|Hne].
  - intros [= <-] [->|Ht]; [left; reflexivity|].
    right. apply in_or_app. left. apply in_map. exact Ht.
  - intros Hf Ht. right. apply in_or_app. right. auto.
Qed.

Lemma walk_complete (s : Path) : forall n,
  s <> [] -> resolve n s = Some RegFile -> In s (walk n).
Proof.
  induction s as [|x rest IH]; intros n Hne Hr; [congruence|].
  simpl in Hr. destruct n as [| |es]; try discriminate.
  destruct (find_entry x es) as [m|] eqn:Hf; [|discriminate].
  apply (walk_dir_in es x m rest Hf).
  destruct rest as [|y rest']; [left; reflexivity|].
  right. apply IH; [discriminate|exact Hr].
Qed.

Lemma children_in (es : list (string * node)) (s : Path) :
  In s (children (Dir es)) <-> exists x, s = [x] /\ In x (map fst es).
Proof.
  simpl. rewrite in_map_iff. split.
  - intros (e & <- & He). exists (fst e). split; [reflexivity|]. apply in_map. exact He.
  - intros (x & -> & Hx). apply in_map_iff in Hx as (e & <- & He). exists e. auto.
Qed.

End Scan.

(** C9: [scan_folder] fails with [FileNotFoundError] exactly when the
    path does not exist, fails with [NotADirectoryError] exactly when it
    exists but is not a directory, and otherwise returns the paths of
    regular files only: all those strictly below the folder when
    [recursive] is true, and those directly inside it when it is false. *)
Theorem scan_folder_spec :
  forall (root : FS.node) (folder : Path) (recursive : bool),
    (FS.scan_folder root folder recursive = inr FS.FileNotFoundError
       <-> FS.resolve root folder = None)
    /\ (FS.scan_folder root folder recursive = inr FS.NotADirectoryError
       <-> exists n, FS.resolve root folder = Some n /\ forall es, n <> FS.Dir es)
    /\ (forall es, FS.resolve root folder = Some (FS.Dir es) ->
         exists l, FS.scan_folder root folder recursive = inl l
           /\ forall q, In q l <->
                FS.resolve root q = Some FS.RegFile
                /\ exists s, q = folder ++ s
                   /\ (if recursive then s <> [] else exists x, s = [x])).
Proof.
  intros root folder recursive.
  unfold FS.scan_folder, FS.exists_, FS.is_dir.
  split; [|split].
  - destruct (FS.resolve root folder) as [[| |es]|]; simpl;
      split; intros H; try discriminate; try reflexivity; destruct recursive; discriminate.
  - destruct (FS.resolve root folder) as [[| |es]|]; simpl.
    + split; [|reflexivity]. intros _. exists FS.RegFile. split; [reflexivity|].
      intros es; discriminate.
    + split; [|reflexivity]. intros _. exists FS.OtherFile. split; [reflexivity|].
      intros es; discriminate.
    + split; [destruct recursive; discriminate|].
      intros (n & [= <-] & Hn). exfalso. exact (Hn es eq_refl).
    + split; [discriminate|]. intros (n & H & _). discriminate.
  - intros es Hr. rewrite Hr. simpl.
    unfold FS.rglob, FS.iterdir. rewrite Hr.
    destruct recursive; eexists; (split; [reflexivity|]); intros q;
      rewrite filter_In, in_map_iff; unfold FS.is_file.
    + split.
      * intros ((s & <- & Hs) & Hf). split.
        -- destruct (FS.resolve root (folder ++ s)) as [[| |]|]; congruence.
        -- exists s. split; [reflexivity|]. exact (walk_nonempty _ _ Hs).
      * intros (Hf & s & -> & Hne). rewrite Hf. split; [|reflexivity].
        exists s. split; [reflexivity|]. apply walk_complete; [exact Hne|].
        rewrite resolve_app, Hr in Hf. exact Hf.
    + split.
      * intros ((s & <- & Hs) & Hf). split.
        -- destruct (FS.resolve root (folder ++ s)) as [[| |]|]; congruence.
        -- apply children_in in Hs as (x & -> & _). exists [x]. eauto.
      * intros (Hf & s & -> & x & ->). rewrite Hf. split; [|reflexivity].
        exists [x]. split; [reflexivity|]. apply children_in. exists x. split; [reflexivity|].
        rewrite resolve_app, Hr in Hf. simpl in Hf.
        destruct (FS.find_entry x es) eqn:He; [|discriminate].
        exact (find_entry_in _ _ _ He).
Qed.

(** ** RowExtractor *)
Section Rows.
Import PdfExtract.

Lemma or_empty_id (s : string) : or_empty s = s.
Proof. destruct s; reflexivity. Qed.

Lemma existsb_filter {A} (f g : A -> bool) (l : list A) :
  existsb f (filter g l) = existsb (fun x => g x && f x) l.
Proof. induction l as [|x l IH]; simpl; [reflexivity|]. destruct (g x); simpl; congruence. Qed.

Lemma existsb_pointwise {A} (f g : A -> bool) (l : list A) :
  (forall x, f x = g x) -> existsb f l = existsb g l.
Proof. intros E. induction l as [|x l IH]; simpl; [reflexivity|]. rewrite E, IH. reflexivity. Qed.

Lemma emit_rows_filter (ci : ColIndices) (rows : Table) :
  emit_rows ci rows
  = map (SpecWords.row_of ci)
      (filter (fun row => SpecWords.real_pn (get_cell_value row (Some (ci_part_number ci)))) rows).
Proof.
  induction rows as [|row rows IH]; simpl; [reflexivity|].
  unfold SpecWords.real_pn.
  destruct (Py.truthy _ && negb _); simpl; rewrite IH; reflexivity.
Qed.

Lemma find_header_row_from_lt (i : nat) (table : Table) (h c : nat) :
  find_header_row_from i table = (Some h, Some c) -> h < i + List.length table.
Proof.
  revert i. induction table as [|row rows IH]; intros i; simpl; [discriminate|].
  destruct (find_part_number_column row).
  - intros [= <- _]. lia.
  - intros H. specialize (IH (S i) H). lia.
Qed.

End Rows.

(** C1: when a header row [h] with part-number column [c] is found,
    [extract_part_rows_from_table] takes as data rows the rows above the
    header if one of them has a non-empty, non-header-like part-number
    value, and the rows below it otherwise; it emits, in table order, one
    [PartRow] per data row whose trimmed part-number cell is non-empty and
    not header-like, every other field read from its mapped column of the
    header row ("" when absent).  Every emitted part number is non-empty
    and not header-like; the table of the spec's example yields "ABC123"
    then "XYZ789". *)
Theorem extract_rows_spec :
  (forall (table : PdfExtract.Table) (h c : nat),
     PdfExtract.find_header_row table = (Some h, Some c) ->
     PdfExtract.extract_part_rows_from_table table = SpecWords.rows_from_header table h c
     /\ forall r, In r (PdfExtract.extract_part_rows_from_table table) ->
          PdfExtract.part_number r <> ""
          /\ PdfExtract.is_header_like (PdfExtract.part_number r) = false)
  /\ map PdfExtract.part_number
       (PdfExtract.extract_part_rows_from_table
          [[Some "Name"; Some "PART NUMBER"; Some "Qty"];
           [Some "Widget"; Some "ABC123"; Some "10"];
           [Some "Gadget"; Some "XYZ789"; Some "5"]])
     = ["ABC123"; "XYZ789"].
Proof.
  split; [|reflexivity].
  intros table h c Hh.
  assert (Heq : PdfExtract.extract_part_rows_from_table table
                = SpecWords.rows_from_header table h c).
  { pose proof (find_header_row_from_lt 0 table h c Hh) as Hlt.
    unfold PdfExtract.extract_part_rows_from_table, SpecWords.rows_from_header.
    destruct table as [|row0 [|row1 rows]]; simpl in Hlt; [lia| |].
    - assert (h = 0) as -> by lia. simpl. reflexivity.
    - assert (G : (match row0 :: row1 :: rows with [] => true | _ => false end
                   || (Datatypes.length (row0 :: row1 :: rows) <? 2)) = false)
        by reflexivity.
      rewrite G, Hh.
      rewrite existsb_filter.
      rewrite (emit_rows_filter (PdfExtract.col_indices_of _ c)). simpl PdfExtract.ci_part_number.
      f_equal. f_equal.
      match goal with
      | |- (if negb ?a then _ else _) = (if ?b then _ else _) =>
          replace a with b; [destruct b; reflexivity|]
      end.
      apply existsb_pointwise. intros row. unfold SpecWords.real_pn.
      rewrite or_empty_id, andb_comm. reflexivity. }
  split; [exact Heq|].
  rewrite Heq. unfold SpecWords.rows_from_header. intros r Hr.
  apply in_map_iff in Hr as (row & <- & Hrow). apply filter_In in Hrow as [_ Hreal].
  unfold SpecWords.real_pn in Hreal. apply andb_prop in Hreal as [Ht Hn].
  change (PdfExtract.part_number (SpecWords.row_of ?ci row))
    with (PdfExtract.get_cell_value row (Some (PdfExtract.ci_part_number ci))).
  change (PdfExtract.ci_part_number (PdfExtract.col_indices_of ?hr c)) with c.
  split.
  - intros E. rewrite E in Ht. discriminate.
  - apply negb_true_iff. exact Hn.
Qed.

Lemma extract_rows_spec_witness :
  PdfExtract.find_header_row [[Some "A1"]; [Some "PN"]; [Some "B2"]] = (Some 1, Some 0)
  /\ PdfExtract.extract_part_rows_from_table [[Some "A1"]; [Some "PN"]; [Some "B2"]]
     = SpecWords.rows_from_header [[Some "A1"]; [Some "PN"]; [Some "B2"]] 1 0.
Proof.
  split; [reflexivity|].
  apply (proj1 extract_rows_spec [[Some "A1"]; [Some "PN"]; [Some "B2"]] 1 0). reflexivity.
Defined.

(** ** RevisionCollapser *)
Section Collapse.
Import FileLookup CollapseView.

Definition group_of (files : list Path) (k : string) : string * list (option nat * Path) :=
  (k, map item (members k files)).

Lemma add_item_map (b : string) (it : option nat * Path)
      (F : string -> list (option nat * Path)) (ks : list string) :
  NoDup ks ->
  add_item b it (map (fun k => (k, F k)) ks)
  = if existsb (String.eqb b) ks
    then map (fun k => (k, if String.eqb k b then F k ++ [it] else F k)) ks
    else map (fun k => (k, F k)) ks ++ [(b, [it])].
Proof.
  induction ks as [|k ks IH]; intros Hnd; simpl; [reflexivity|].
  inversion Hnd as [|? ? Hk Hnd']; subst.
  rewrite (String.eqb_sym b k). destruct (String.eqb k b) eqn:E; simpl.
  - apply String.eqb_eq in E as ->. f_equal.
    apply map_ext_in. intros k' Hk'.
    destruct (String.eqb_spec k' b); [subst; contradiction|reflexivity].
  - rewrite (IH Hnd'). destruct (existsb (String.eqb b) ks); reflexivity.
Qed.

Lemma existsb_eqb_In (b : string) (ks : list string) :
  existsb (String.eqb b) ks = true <-> In b ks.
Proof.
  rewrite existsb_exists. split.
  - intros (k & Hk & E). apply String.eqb_eq in E. congruence.
  - intros H. exists b. split; [exact H|]. apply String.eqb_refl.
Qed.

Lemma uniq_keys_snoc (fs : list Path) (f : Path) :
  uniq_keys (fs ++ [f])
  = if existsb (String.eqb (base_key f)) (uniq_keys fs) then uniq_keys fs
    else uniq_keys fs ++ [base_key f].
Proof. unfold uniq_keys. rewrite fold_left_app. reflexivity. Qed.

Lemma uniq_keys_complete (fs : list Path) (f : Path) :
  In f fs -> In (base_key f) (uniq_keys fs).
Proof.
  induction fs as [|x fs IH] using rev_ind; [simpl; tauto|].
  rewrite uniq_keys_snoc. intros Hin. apply in_app_or in Hin as [Hin|[->|[]]].
  - specialize (IH Hin). destruct (existsb _ _); [exact IH|].
    apply in_or_app. left. exact IH.
  - destruct (existsb (String.eqb (base_key f)) (uniq_keys fs)) eqn:E.
    + apply existsb_eqb_In. exact E.
    + apply in_or_app. right. left. reflexivity.
Qed.

Lemma uniq_keys_nodup (fs : list Path) : NoDup (uniq_keys fs).
Proof.
  induction fs as [|x fs IH] using rev_ind; [constructor|].
  rewrite uniq_keys_snoc. destruct (existsb _ _) eqn:E; [exact IH|].
  apply NoDup_app; [exact IH|constructor; [tauto|constructor]|].
  intros k Hk [<-|[]]. apply (proj2 (existsb_eqb_In _ _)) in Hk. congruence.
Qed.

Lemma members_snoc (k : string) (fs : list Path) (f : Path) :
  members k (fs ++ [f])
  = members k fs ++ (if String.eqb (base_key f) k then [f] else []).
Proof. unfold members. rewrite filter_app. simpl. destruct (String.eqb _ _); reflexivity. Qed.

Lemma members_absent (k : string) (fs : list Path) :
  ~ In k (uniq_keys fs) -> members k fs = [].
Proof.
  intros Hk. unfold members. destruct (filter _ fs) as [|f rest] eqn:E; [reflexivity|].
  exfalso. assert (Hf : In f (filter (fun f => String.eqb (base_key f) k) fs))
    by (rewrite E; left; reflexivity).
  apply filter_In in Hf as [Hin He]. apply String.eqb_eq in He.
  apply Hk. rewrite <- He. apply uniq_keys_complete. exact Hin.
Qed.

(** The dict built by the first loop maps each key, in order of first
    occurrence, to the items of its members in input order. *)
Lemma build_groups_view (files : list Path) :
  build_groups files = map (group_of files) (uniq_keys files).
Proof.
  unfold build_groups. induction files as [|f fs IH] using rev_ind; [reflexivity|].
  rewrite fold_left_app, IH. simpl fold_left. unfold group_step.
  fold (base_key f) (revision f). change (revision f, f) with (item f).
  unfold group_of.
  rewrite (add_item_map (base_key f) (item f) (fun k => map item (members k fs)))
    by apply uniq_keys_nodup.
  rewrite uniq_keys_snoc.
  destruct (existsb (String.eqb (base_key f)) (uniq_keys fs)) eqn:E.
  - apply map_ext_in. intros k _. rewrite members_snoc, map_app, String.eqb_sym.
    destruct (String.eqb (base_key f) k); simpl; rewrite ?app_nil_r; reflexivity.
  - rewrite map_app. f_equal.
    + apply map_ext_in. intros k Hk. rewrite members_snoc.
      destruct (String.eqb (base_key f) k) eqn:Ek; [|rewrite app_nil_r; reflexivity].
      apply String.eqb_eq in Ek. subst k.
      apply (proj2 (existsb_eqb_In _ _)) in Hk. congruence.
    + simpl. rewrite members_snoc, String.eqb_refl, members_absent; [reflexivity|].
      intros Hk. apply (proj2 (existsb_eqb_In _ _)) in Hk. congruence.
Qed.

(** The stable descending sort puts a largest revision first. *)
Definition head_is_max (l : list (nat * Path)) : Prop :=
  match l with
  | [] => True
  | h :: _ => forall z, In z l -> fst z <= fst h
  end.

Lemma insert_desc_in (x y : nat * Path) (l : list (nat * Path)) :
  In y (insert_desc x l) <-> x = y \/ In y l.
Proof.
  induction l as [|z l IH]; simpl; [tauto|].
  destruct (fst z <? fst x); simpl; [tauto|]. rewrite IH. tauto.
Qed.

Lemma insert_desc_head (x : nat * Path) (l : list (nat * Path)) :
  head_is_max l -> head_is_max (insert_desc x l).
Proof.
  destruct l as [|y l]; simpl.
  - intros _ z [<-|[]]. lia.
  - intros Hy. destruct (fst y <? fst x) eqn:E; simpl.
    + apply Nat.ltb_lt in E. intros z [<-|Hz]; [lia|]. specialize (Hy z Hz). lia.
    + apply Nat.ltb_ge in E. intros z [<-|Hz]; [lia|].
      apply insert_desc_in in Hz as [->|Hz]; [lia|]. apply Hy. right. exact Hz.
Qed.

Lemma sort_desc_acc (l acc : list (nat * Path)) :
  head_is_max acc ->
  head_is_max (fold_left (fun acc x => insert_desc x acc) l acc)
  /\ forall y, In y (fold_left (fun acc x => insert_desc x acc) l acc) <-> In y l \/ In y acc.
Proof.
  revert acc. induction l as [|x l IH]; intros acc Hacc; simpl; [split; [exact Hacc|intros; tauto]|].
  destruct (IH (insert_desc x acc) (insert_desc_head x acc Hacc)) as [H1 H2].
  split; [exact H1|]. intros y. rewrite H2, insert_desc_in. tauto.
Qed.

Lemma sort_desc_spec (l : list (nat * Path)) :
  head_is_max (sort_desc l) /\ forall y, In y (sort_desc l) <-> In y l.
Proof.
  destruct (sort_desc_acc l [] I) as [H1 H2]. split; [exact H1|].
  intros y. unfold sort_desc. rewrite H2. simpl. tauto.
Qed.

Lemma with_rev_in (r : nat) (p : Path) (items : list (option nat * Path)) :
  In (r, p) (with_rev items) <-> In (Some r, p) items.
Proof.
  induction items as [|[[r'|] p'] items IH]; simpl; [tauto| |].
  - rewrite IH. split; intros [H|H]; auto; left; congruence.
  - rewrite IH. split; [auto|]. intros [H|H]; [discriminate|exact H].
Qed.

Lemma without_rev_in (p : Path) (items : list (option nat * Path)) :
  In p (without_rev items) <-> In (None, p) items.
Proof.
  induction items as [|[[r'|] p'] items IH]; simpl; [tauto| |].
  - rewrite IH. split; [auto|]. intros [H|H]; [discriminate|exact H].
  - rewrite IH. split; intros [H|H]; auto; left; congruence.
Qed.

Lemma process_group_sub (items : list (option nat * Path)) (p : Path) :
  In p (process_group items) -> In p (map snd items).
Proof.
  unfold process_group. destruct (sort_desc_spec (with_rev items)) as [_ Hin].
  destruct (sort_desc (with_rev items)) as [|[r q] rest] eqn:E.
  - intros Hp. apply without_rev_in in Hp. apply in_map_iff. exists (None, p). auto.
  - intros [<-|[]]. assert (Hq : In (r, q) (with_rev items)) by (apply Hin; left; reflexivity).
    apply with_rev_in in Hq. apply in_map_iff. exists (Some r, q). auto.
Qed.

Lemma filter_const {A} (f : A -> bool) (c : bool) (l : list A) :
  (forall x, In x l -> f x = c) -> filter f l = if c then l else [].
Proof.
  intros H. induction l as [|x l IH]; simpl; [destruct c; reflexivity|].
  rewrite H by (left; reflexivity). rewrite IH by (intros y Hy; apply H; right; exact Hy).
  destruct c; reflexivity.
Qed.

Lemma filter_flat_map {A B} (f : B -> bool) (g : A -> list B) (l : list A) :
  filter f (flat_map g l) = flat_map (fun x => filter f (g x)) l.
Proof. induction l as [|x l IH]; simpl; [reflexivity|]. rewrite filter_app, IH. reflexivity. Qed.

Lemma flat_map_select {B} (b : string) (g : string -> list B) (ks : list string) :
  NoDup ks ->
  flat_map (fun k => if String.eqb k b then g k else []) ks
  = if existsb (String.eqb b) ks then g b else [].
Proof.
  induction ks as [|k ks IH]; intros Hnd; simpl; [reflexivity|].
  inversion Hnd as [|? ? Hk Hnd']; subst.
  rewrite (String.eqb_sym b k). destruct (String.eqb_spec k b) as [->|Hne].
  - rewrite (IH Hnd'). destruct (existsb (String.eqb b) ks) eqn:E; [|apply app_nil_r].
    apply existsb_eqb_In in E. contradiction.
  - simpl. apply IH. exact Hnd'.
Qed.

Lemma collapse_view (files : list Path) :
  collapse_to_latest_revision files
  = flat_map (fun k => process_group (map item (members k files))) (uniq_keys files).
Proof.
  unfold collapse_to_latest_revision. destruct files as [|f fs]; [reflexivity|].
  rewrite build_groups_view. generalize (uniq_keys (f :: fs)). intros ks.
  induction ks as [|k ks IH]; simpl; [reflexivity|]. rewrite IH. reflexivity.
Qed.

(** Collapsing one key's group does not depend on the other groups. *)
Lemma members_collapse (b : string) (files : list Path) :
  members b (collapse_to_latest_revision files)
  = process_group (map item (members b files)).
Proof.
  rewrite collapse_view. unfold members at 1. rewrite filter_flat_map.
  rewrite (flat_map_ext _ (fun k => if String.eqb k b
                                    then process_group (map item (members k files)) else [])).
  2:{ intros k. apply filter_const. intros p Hp.
      apply process_group_sub in Hp. rewrite map_map in Hp. simpl in Hp.
      rewrite map_id in Hp. unfold members in Hp. apply filter_In in Hp as [_ Hk].
      apply String.eqb_eq in Hk. rewrite Hk. reflexivity. }
  rewrite flat_map_select by apply uniq_keys_nodup.
  destruct (existsb (String.eqb b) (uniq_keys files)) eqn:E; [reflexivity|].
  rewrite members_absent; [reflexivity|]. intros Hb. apply existsb_eqb_In in Hb. congruence.
Qed.

End Collapse.

(** C2: [collapse_to_latest_revision] treats each base-key group on its
    own.  In a group where no member has a revision number every member is
    kept, in order; in a group where some member has one, exactly one
    member is kept, and it carries the largest revision number of the
    group (unrevisioned members of the group are dropped).  Nothing outside
    the input is produced, and {ABC123, ABC123_rev1, ABC123_rev2} collapses
    to {ABC123_rev2}. *)
Theorem collapse_keeps_latest_per_group :
  (forall (files : list Path) (b : string),
     let g := CollapseView.members b files in
     (forallb (fun f => match CollapseView.revision f with None => true | Some _ => false end) g
        = true ->
      CollapseView.members b (FileLookup.collapse_to_latest_revision files) = g)
     /\ (existsb (fun f => match CollapseView.revision f with Some _ => true | None => false end) g
           = true ->
         exists m r,
           CollapseView.members b (FileLookup.collapse_to_latest_revision files) = [m]
           /\ In m g /\ CollapseView.revision m = Some r
           /\ forall p r', In p g -> CollapseView.revision p = Some r' -> r' <= r))
  /\ (forall files : list Path, incl (FileLookup.collapse_to_latest_revision files) files)
  /\ FileLookup.collapse_to_latest_revision
       [["d"; "ABC123.pdf"]; ["d"; "ABC123_rev1.pdf"]; ["d"; "ABC123_rev2.pdf"]]
     = [["d"; "ABC123_rev2.pdf"]].
Proof.
  split; [|split; [|reflexivity]].
  - intros files b g. rewrite members_collapse. fold g.
    unfold FileLookup.process_group.
    split.
    + intros Hnone.
      assert (Hw : FileLookup.with_rev (map CollapseView.item g) = []).
      { destruct (FileLookup.with_rev (map CollapseView.item g)) as [|[r p] rest] eqn:E;
          [reflexivity|exfalso].
        assert (Hin : In (r, p) (FileLookup.with_rev (map CollapseView.item g)))
          by (rewrite E; left; reflexivity).
        apply with_rev_in, in_map_iff in Hin as (f & Hf & Hfin).
        unfold CollapseView.item in Hf. injection Hf as Hr <-.
        rewrite forallb_forall in Hnone. specialize (Hnone f Hfin). rewrite Hr in Hnone.
        discriminate. }
      rewrite Hw. simpl.
      clear Hw. induction g as [|f g IH]; [reflexivity|].
      simpl in Hnone |- *. unfold CollapseView.item at 1.
      destruct (CollapseView.revision f); [discriminate|]. f_equal. apply IH. exact Hnone.
    + intros Hsome.
      apply existsb_exists in Hsome as (f0 & Hf0 & Hr0).
      destruct (CollapseView.revision f0) as [r0|] eqn:E0; [|discriminate].
      assert (H0 : In (r0, f0) (FileLookup.with_rev (map CollapseView.item g))).
      { apply with_rev_in, in_map_iff. exists f0. unfold CollapseView.item. rewrite E0. auto. }
      destruct (sort_desc_spec (FileLookup.with_rev (map CollapseView.item g))) as [Hmax Hin].
      destruct (FileLookup.sort_desc _) as [|[r m] rest] eqn:Es.
      { apply Hin in H0. destruct H0. }
      assert (Hm : In (r, m) (FileLookup.with_rev (map CollapseView.item g)))
        by (apply Hin; left; reflexivity).
      apply with_rev_in, in_map_iff in Hm as (m' & Hm' & Hmin).
      unfold CollapseView.item in Hm'. injection Hm' as Hrm ->.
      exists m, r. split; [reflexivity|]. split; [exact Hmin|]. split; [exact Hrm|].
      intros p r' Hp Hpr.
      assert (Hp' : In (r', p) ((r, m) :: rest)).
      { apply Hin, with_rev_in, in_map_iff. exists p. unfold CollapseView.item. rewrite Hpr. auto. }
      exact (Hmax _ Hp').
  - intros files p Hp. rewrite collapse_view in Hp.
    apply in_flat_map in Hp as (k & _ & Hp).
    apply process_group_sub in Hp. rewrite map_map in Hp. simpl in Hp. rewrite map_id in Hp.
    unfold CollapseView.members in Hp. apply filter_In in Hp as [Hp _]. exact Hp.
Qed.

(** ** Grouping key *)

Lemma sub_fuel_no_match (fuel : nat) (t : string) :
  Rev.search t = None -> Rev.sub_fuel fuel t = t.
Proof.
  revert t. induction fuel as [|fuel IH]; intros t Ht; [reflexivity|].
  destruct t as [|a t']; [reflexivity|].
  cbn [Rev.sub_fuel Rev.search] in *.
  destruct (Rev.match_at (String a t')) as [[d r]|]; [discriminate|].
  rewrite (IH t' Ht). reflexivity.
Qed.

(** C5 (counterexample): the stems "ABC-123_rev1" and "ABC123_rev2"
    differ only in a hyphen outside the revision token, yet their grouping
    keys differ ("abc-123" and "abc123") and collapsing keeps both files,
    so they are not in one revision group. *)
Theorem base_key_keeps_hyphen :
  FileLookup.get_base_name_without_revision "ABC-123_rev1" = "abc-123"
  /\ FileLookup.get_base_name_without_revision "ABC123_rev2" = "abc123"
  /\ normalize_for_match "ABC-123" = normalize_for_match "ABC123"
  /\ FileLookup.collapse_to_latest_revision [["d"; "ABC-123_rev1.pdf"]; ["d"; "ABC123_rev2.pdf"]]
     = [["d"; "ABC-123_rev1.pdf"]; ["d"; "ABC123_rev2.pdf"]].
Proof. repeat split; reflexivity. Qed.

(** * Further properties of the code *)

(** ** Dicts built by a loop of assignments *)
Section DictLoop.
Context {X A : Type} (key : X -> string) (val : X -> A).

Definition dict_step (d : list (string * A)) (x : X) : list (string * A) :=
  PyDict.set d (key x) (val x).

Lemma get_set (d : list (string * A)) (k k' : string) (v : A) :
  PyDict.get (PyDict.set d k v) k' = if String.eqb k k' then Some v else PyDict.get d k'.
Proof.
  induction d as [|[k0 v0] d IH]; simpl.
  - destruct (String.eqb k k'); reflexivity.
  - destruct (String.eqb_spec k0 k) as [->|Hne]; simpl.
    + destruct (String.eqb k k'); reflexivity.
    + rewrite IH. destruct (String.eqb_spec k0 k'), (String.eqb_spec k k'); congruence.
Qed.

Lemma keys_set (d : list (string * A)) (k : string) (v : A) (k' : string) :
  In k' (map fst (PyDict.set d k v)) <-> k = k' \/ In k' (map fst d).
Proof.
  induction d as [|[k0 v0] d IH]; simpl; [tauto|].
  destruct (String.eqb_spec k0 k) as [->|Hne]; simpl; [tauto|]. rewrite IH. tauto.
Qed.

Lemma nodup_set (d : list (string * A)) (k : string) (v : A) :
  NoDup (map fst d) -> NoDup (map fst (PyDict.set d k v)).
Proof.
  induction d as [|[k0 v0] d IH]; simpl; intros Hnd; [constructor; [tauto|constructor]|].
  inversion Hnd as [|? ? Hk0 Hnd']; subst.
  destruct (String.eqb_spec k0 k) as [->|Hne]; simpl; [exact Hnd|].
  constructor; [|exact (IH Hnd')]. rewrite keys_set. intros [->|H]; [congruence|tauto].
Qed.

Lemma get_loop (l : list X) (d0 : list (string * A)) (k : string) :
  PyDict.get (fold_left dict_step l d0) k
  = fold_left (fun acc x => if String.eqb (key x) k then Some (val x) else acc) l
      (PyDict.get d0 k).
Proof.
  revert d0. induction l as [|x l IH]; intros d0; simpl; [reflexivity|].
  rewrite IH. unfold dict_step. rewrite get_set. reflexivity.
Qed.

Lemma keys_loop (l : list X) (d0 : list (string * A)) (k : string) :
  In k (map fst (fold_left dict_step l d0)) <-> In k (map key l) \/ In k (map fst d0).
Proof.
  revert d0. induction l as [|x l IH]; intros d0; simpl; [tauto|].
  rewrite IH. unfold dict_step. rewrite keys_set. tauto.
Qed.

Lemma nodup_loop (l : list X) (d0 : list (string * A)) :
  NoDup (map fst d0) -> NoDup (map fst (fold_left dict_step l d0)).
Proof.
  revert d0. induction l as [|x l IH]; intros d0 Hnd; simpl; [exact Hnd|].
  apply IH. apply nodup_set. exact Hnd.
Qed.

Lemma fold_last_unchanged (l : list X) (k : string) (acc : option A) :
  (forall x, In x l -> key x <> k) ->
  fold_left (fun acc x => if String.eqb (key x) k then Some (val x) else acc) l acc = acc.
Proof.
  revert acc. induction l as [|x l IH]; intros acc Hl; simpl; [reflexivity|].
  destruct (String.eqb_spec (key x) k) as [E|_]; [exfalso; exact (Hl x (or_introl eq_refl) E)|].
  apply IH. intros y Hy. apply Hl. right. exact Hy.
Qed.

Lemma fold_last_in (l : list X) (k : string) (acc : option A) (f : string -> A) :
  (forall x, In x l -> key x = k -> val x = f k) -> In k (map key l) ->
  fold_left (fun acc x => if String.eqb (key x) k then Some (val x) else acc) l acc = Some (f k).
Proof.
  revert acc. induction l as [|x l IH]; intros acc Hf Hk; simpl in *; [contradiction|].
  destruct (in_dec string_dec k (map key l)) as [Hin|Hnin].
  - apply IH; [intros y Hy; apply Hf; right; exact Hy|exact Hin].
  - destruct Hk as [Hk|Hk]; [|contradiction].
    rewrite fold_last_unchanged.
    + rewrite Hk, String.eqb_refl. f_equal. apply Hf; [left; reflexivity|exact Hk].
    + intros y Hy E. apply Hnin. rewrite <- E. apply in_map. exact Hy.
Qed.

End DictLoop.

(** ** Folder-level lookups *)

Lemma collapse_subset (files : list Path) :
  incl (FileLookup.collapse_to_latest_revision files) files.
Proof.
  intros p Hp. rewrite collapse_view in Hp.
  apply in_flat_map in Hp as (k & _ & Hp).
  apply process_group_sub in Hp. rewrite map_map in Hp. simpl in Hp. rewrite map_id in Hp.
  unfold CollapseView.members in Hp. apply filter_In in Hp as [Hp _]. exact Hp.
Qed.

Lemma find_filtered_subset (q : string) (files : list Path) (mode : string) (exts : list string) :
  incl (FileLookup.find_matching_files q files mode (Some exts))
       (FileLookup.find_matching_files q files mode None).
Proof.
  unfold FileLookup.find_matching_files. apply filter_incl_impl. intros f Hf.
  apply andb_prop in Hf as [_ Hm]. exact Hm.
Qed.

(** [lookup_part_numbers] raises the error of [scan_folder] unchanged;
    otherwise it returns a dict with one entry per distinct part number of
    the input, each mapped to [lookup_part_number] over the scanned
    files. *)
Theorem lookup_part_numbers_spec :
  forall (root : FS.node) (pns : list string) (folder : Path) (recursive : bool)
         (mode : string),
    match FS.scan_folder root folder recursive with
    | inr e => Lookups.lookup_part_numbers root pns folder recursive mode = inr e
    | inl files =>
        exists d, Lookups.lookup_part_numbers root pns folder recursive mode = inl d
          /\ NoDup (map fst d)
          /\ (forall k, In k (map fst d) <-> In k pns)
          /\ forall pn, In pn pns ->
               PyDict.get d pn = Some (FileLookup.lookup_part_number pn files mode)
    end.
Proof.
  intros root pns folder recursive mode. unfold Lookups.lookup_part_numbers.
  destruct (FS.scan_folder root folder recursive) as [files|e]; [|reflexivity].
  set (val := fun pn => FileLookup.lookup_part_number pn files mode).
  exists (fold_left (dict_step (fun x => x) val) pns []). split; [reflexivity|].
  split; [apply nodup_loop; constructor|]. split.
  - intros k. rewrite keys_loop, map_id. simpl. tauto.
  - intros pn Hpn. rewrite get_loop. apply (fold_last_in (fun x => x) val pns pn None val).
    + intros x _ <-. reflexivity.
    + rewrite map_id. exact Hpn.
Qed.

(** The legacy lookup and [lookup_part_numbers] fail together with the same
    error; when they succeed, every part number the new lookup answers is
    answered by the legacy one too, with a file list that contains both the
    PDF files and the model files of the new result. *)
Theorem legacy_lookup_contains_results :
  forall (root : FS.node) (pns : list string) (folder : Path) (recursive : bool)
         (mode : string),
    match Lookups.lookup_part_numbers root pns folder recursive mode,
          Lookups.lookup_part_numbers_legacy root pns folder recursive mode with
    | inl d, inl dl =>
        forall pn res, PyDict.get d pn = Some res ->
          exists fs, PyDict.get dl pn = Some fs
            /\ incl (FileLookup.pdf_files res) fs /\ incl (FileLookup.model_files res) fs
    | inr e, inr e' => e = e'
    | _, _ => False
    end.
Proof.
  intros root pns folder recursive mode.
  unfold Lookups.lookup_part_numbers, Lookups.lookup_part_numbers_legacy.
  destruct (FS.scan_folder root folder recursive) as [files|e]; [|reflexivity].
  intros pn res Hres.
  set (val := fun pn => FileLookup.lookup_part_number pn files mode) in Hres.
  set (lval := fun pn => FileLookup.find_matching_files pn files mode None).
  change (PyDict.get (fold_left (dict_step (fun x => x) val) pns []) pn = Some res) in Hres.
  rewrite get_loop in Hres. simpl in Hres.
  assert (Hin : In pn pns).
  { destruct (in_dec string_dec pn pns) as [H|H]; [exact H|].
    rewrite fold_last_unchanged in Hres; [discriminate|]. intros x Hx E. subst. contradiction. }
  rewrite (fold_last_in (fun x => x) val pns pn None val) in Hres;
    [|intros x _ <-; reflexivity|rewrite map_id; exact Hin].
  injection Hres as <-.
  exists (lval pn). split.
  - change (PyDict.get (fold_left (dict_step (fun x => x) lval) pns []) pn = Some (lval pn)).
    rewrite get_loop. apply (fold_last_in (fun x => x) lval pns pn None lval).
    + intros x _ <-. reflexivity.
    + rewrite map_id. exact Hin.
  - unfold val, lval, FileLookup.lookup_part_number.
    destruct (Py.endswith (Py.rstrip pn) "*"); simpl; split.
    + intros x [].
    + apply find_filtered_subset.
    + intros x Hx. apply find_filtered_subset with (exts := FileLookup.pdf_exts).
      exact (collapse_subset _ x Hx).
    + apply find_filtered_subset.
Qed.

(** ** Batch extraction *)

(** [extract_part_numbers_batch] never fails: it has exactly one entry per
    distinct file name of the input, and the entry for a name is decided by
    the last document with that name: its part numbers, or [] when its
    extraction raised. *)
Theorem batch_entries :
  forall (outcome : Path -> Documents.Outcome) (paths : list Path),
    let d := Documents.extract_part_numbers_batch outcome paths in
    NoDup (map fst d)
    /\ (forall n, In n (map fst d) <-> In n (map name paths))
    /\ forall pre p post, paths = pre ++ p :: post ->
         (forall q, In q post -> name q <> name p) ->
         PyDict.get d (name p)
         = Some (match outcome p with
                 | Documents.Returned ns => ns
                 | Documents.Raised => []
                 end).
Proof.
  intros outcome paths d.
  set (val := fun path => match outcome path with
                          | Documents.Returned ns => ns
                          | Documents.Raised => []
                          end).
  change d with (fold_left (dict_step name val) paths []).
  split; [apply nodup_loop; constructor|]. split.
  - intros n. rewrite keys_loop. simpl. tauto.
  - intros pre p post -> Hpost. rewrite get_loop, fold_left_app. simpl.
    rewrite String.eqb_refl. apply fold_last_unchanged. exact Hpost.
Qed.

(** ** Table selection *)

(** The PDF-level loop returns the rows of the first candidate table that
    yields any, and [] exactly when no candidate yields rows. *)
Theorem first_table_rows_spec :
  (forall cands : list PdfExtract.Table,
     Documents.first_table_rows cands = []
     <-> forall t, In t cands -> PdfExtract.extract_part_rows_from_table t = [])
  /\ (forall (pre : list PdfExtract.Table) (t : PdfExtract.Table) (post : list PdfExtract.Table),
        (forall u, In u pre -> PdfExtract.extract_part_rows_from_table u = []) ->
        PdfExtract.extract_part_rows_from_table t <> [] ->
        Documents.first_table_rows (pre ++ t :: post) = PdfExtract.extract_part_rows_from_table t).
Proof.
  split.
  - intros cands. induction cands as [|t cands IH]; simpl; [split; [intros _ u []|reflexivity]|].
    destruct t as [|row rows] eqn:Et.
    + rewrite IH. split.
      * intros H u [<-|Hu]; [reflexivity|exact (H u Hu)].
      * intros H u Hu. apply H. right. exact Hu.
    + rewrite <- Et. destruct (PdfExtract.extract_part_rows_from_table t) as [|r rs] eqn:Er.
      * rewrite IH. split.
        -- intros H u [<-|Hu]; [exact Er|exact (H u Hu)].
        -- intros H u Hu. apply H. right. exact Hu.
      * split; [discriminate|]. intros H. rewrite (H t (or_introl eq_refl)) in Er. discriminate.
  - intros pre t post Hpre Ht. induction pre as [|u pre IH]; simpl.
    + destruct t as [|row rows]; [contradiction|].
      destruct (PdfExtract.extract_part_rows_from_table (row :: rows)); [contradiction|reflexivity].
    + assert (Hu : PdfExtract.extract_part_rows_from_table u = []) by (apply Hpre; left; reflexivity).
      rewrite <- IH by (intros v Hv; apply Hpre; right; exact Hv).
      destruct u as [|row rows]; [reflexivity|]. rewrite Hu. reflexivity.
Qed.

(** ** Scanning depth *)

Lemma walk_entry_in (es : list (string * FS.node)) (x : string) (m : FS.node) :
  In (x, m) es -> In [x] (FS.walk (FS.Dir es)).
Proof.
  induction es as [|[y k] es IH]; [intros []|]. rewrite walk_cons.
  intros [[= -> ->]|H]; [left; reflexivity|]. right. apply in_or_app. right. exact (IH H).
Qed.

(** A non-recursive scan fails exactly as a recursive scan of the same
    path does, and otherwise returns a part of the recursive result. *)
Theorem scan_flat_within_recursive :
  forall (root : FS.node) (folder : Path),
    match FS.scan_folder root folder false, FS.scan_folder root folder true with
    | inl flat, inl deep => incl flat deep
    | inr e, inr e' => e = e'
    | _, _ => False
    end.
Proof.
  intros root folder. unfold FS.scan_folder, FS.exists_, FS.is_dir, FS.rglob, FS.iterdir.
  destruct (FS.resolve root folder) as [[| |es]|]; simpl; try reflexivity.
  intros s Hs. apply filter_In in Hs as [Hs Hf]. apply filter_In. split; [|exact Hf].
  apply in_map_iff in Hs as (c & <- & Hc). apply in_map.
  apply in_map_iff in Hc as ([x m] & <- & He). exact (walk_entry_in es x m He).
Qed.

(** ** Collapsing twice *)

Lemma unrevisioned_items (l : list Path) :
  (forall p, In p l -> CollapseView.revision p = None) ->
  FileLookup.with_rev (map CollapseView.item l) = []
  /\ FileLookup.without_rev (map CollapseView.item l) = l.
Proof.
  induction l as [|p l IH]; intros H; [split; reflexivity|].
  change (map CollapseView.item (p :: l))
    with ((CollapseView.revision p, p) :: map CollapseView.item l).
  rewrite (H p (or_introl eq_refl)).
  destruct IH as [H1 H2]; [intros q Hq; apply H; right; exact Hq|].
  cbn [FileLookup.with_rev FileLookup.without_rev]. rewrite H1, H2. split; reflexivity.
Qed.

Lemma process_group_idem (g : list Path) :
  FileLookup.process_group (map CollapseView.item
                              (FileLookup.process_group (map CollapseView.item g)))
  = FileLookup.process_group (map CollapseView.item g).
Proof.
  set (X := map CollapseView.item g).
  destruct (sort_desc_spec (FileLookup.with_rev X)) as [_ Hin].
  destruct (FileLookup.sort_desc (FileLookup.with_rev X)) as [|[r m] rest] eqn:E.
  - assert (HP : FileLookup.process_group X = FileLookup.without_rev X)
      by (unfold FileLookup.process_group; rewrite E; reflexivity).
    rewrite HP.
    destruct (unrevisioned_items (FileLookup.without_rev X)) as [H1 H2].
    + intros p Hp. apply without_rev_in in Hp. unfold X in Hp.
      apply in_map_iff in Hp as (q & Hq & _). unfold CollapseView.item in Hq.
      injection Hq as Hr ->. exact Hr.
    + unfold FileLookup.process_group at 1. rewrite H1. exact H2.
  - assert (HP : FileLookup.process_group X = [m])
      by (unfold FileLookup.process_group; rewrite E; reflexivity).
    rewrite HP.
    assert (Hm : In (r, m) (FileLookup.with_rev X)) by (apply Hin; left; reflexivity).
    apply with_rev_in in Hm. unfold X in Hm.
    apply in_map_iff in Hm as (q & Hq & _). unfold CollapseView.item in Hq.
    injection Hq as Hr ->.
    cbn [map]. unfold CollapseView.item. rewrite Hr. reflexivity.
Qed.

(** Collapsing an already collapsed list changes no group: for every base
    key, the files kept for it after two passes are those kept after one. *)
Theorem collapse_idempotent_per_key :
  forall (files : list Path) (b : string),
    CollapseView.members b
      (FileLookup.collapse_to_latest_revision (FileLookup.collapse_to_latest_revision files))
    = CollapseView.members b (FileLookup.collapse_to_latest_revision files).
Proof.
  intros files b. rewrite !members_collapse. apply process_group_idem.
Qed.

(** ** Header and column search *)

Lemma find_index_from_spec (aliases : list string) (headers : PdfExtract.Row) (i : nat) :
  match PdfExtract.find_index_from aliases i headers with
  | Some k =>
      i <= k < i + List.length headers
      /\ In (normalize_header (nth (k - i) headers None)) aliases
      /\ forall j, j < k - i -> ~ In (normalize_header (nth j headers None)) aliases
  | None => forall h, In h headers -> ~ In (normalize_header h) aliases
  end.
Proof.
  revert i. induction headers as [|h hs IH]; intros i; simpl; [intros _ []|].
  destruct (existsb (String.eqb (normalize_header h)) aliases) eqn:E.
  - apply existsb_exists in E as (a & Ha & Hea). apply String.eqb_eq in Hea.
    rewrite Nat.sub_diag. split; [lia|]. split; [rewrite Hea; exact Ha|]. intros j Hj. lia.
  - assert (Hh : ~ In (normalize_header h) aliases).
    { intros Hin. assert (existsb (String.eqb (normalize_header h)) aliases = true)
        by (apply existsb_exists; exists (normalize_header h); split; [exact Hin|apply String.eqb_refl]).
      congruence. }
    specialize (IH (S i)). destruct (PdfExtract.find_index_from aliases (S i) hs) as [k|].
    + destruct IH as (Hk & Hin & Hbefore).
      replace (k - i) with (S (k - S i)) by lia. split; [lia|]. split; [exact Hin|].
      intros [|j] Hj; [exact Hh|]. apply Hbefore. lia.
    + intros h' [<-|Hh']; [exact Hh|exact (IH h' Hh')].
Qed.

(** [find_column_index] returns the position of the first header whose
    normalized text is one of the column's aliases (the name itself for a
    name without an alias list), and [None] exactly when no header is. *)
Theorem find_column_index_first_alias :
  forall (headers : PdfExtract.Row) (column_name : string),
    let aliases := PdfExtract.dict_get PdfExtract.COLUMN_ALIASES column_name [column_name] in
    (~ In column_name (map fst PdfExtract.COLUMN_ALIASES) -> aliases = [column_name])
    /\ match PdfExtract.find_column_index headers column_name with
       | Some i =>
           i < List.length headers
           /\ In (normalize_header (nth i headers None)) aliases
           /\ forall j, j < i -> ~ In (normalize_header (nth j headers None)) aliases
       | None => forall h, In h headers -> ~ In (normalize_header h) aliases
       end.
Proof.
  intros headers column_name aliases. split.
  - intros Hn. unfold aliases. simpl in Hn. simpl.
    repeat match goal with
    | |- context [String.eqb column_name ?k] =>
        destruct (String.eqb_spec column_name k); [subst; tauto|]
    end. reflexivity.
  - pose proof (find_index_from_spec aliases headers 0) as H.
    unfold PdfExtract.find_column_index. fold aliases.
    destruct (PdfExtract.find_index_from aliases 0 headers) as [k|]; [|exact H].
    rewrite Nat.sub_0_r in H. destruct H as (Hk & Hin & Hb). split; [lia|]. split; assumption.
Qed.

Lemma find_header_row_from_spec (table : PdfExtract.Table) (i : nat) :
  match PdfExtract.find_header_row_from i table with
  | (Some h, Some c) =>
      i <= h < i + List.length table
      /\ PdfExtract.find_part_number_column (nth (h - i) table []) = Some c
      /\ forall j, j < h - i -> PdfExtract.find_part_number_column (nth j table []) = None
  | (None, None) => forall row, In row table -> PdfExtract.find_part_number_column row = None
  | _ => False
  end.
Proof.
  revert i. induction table as [|row rows IH]; intros i; simpl; [intros _ []|].
  destruct (PdfExtract.find_part_number_column row) as [c|] eqn:E.
  - rewrite Nat.sub_diag. split; [lia|]. split; [exact E|]. intros j Hj. lia.
  - specialize (IH (S i)).
    destruct (PdfExtract.find_header_row_from (S i) rows) as [[h|] [c|]]; try exact IH.
    + destruct IH as (Hh & Hc & Hb).
      replace (h - i) with (S (h - S i)) by lia. split; [lia|]. split; [exact Hc|].
      intros [|j] Hj; [exact E|]. apply Hb. lia.
    + intros r [<-|Hr]; [exact E|exact (IH r Hr)].
Qed.

(** [find_header_row] returns the first row having a part-number alias
    cell, with that cell's first such column; it returns [(None, None)]
    exactly when no row has one, and never only one of the two. *)
Theorem find_header_row_first :
  forall table : PdfExtract.Table,
    match PdfExtract.find_header_row table with
    | (Some h, Some c) =>
        h < List.length table
        /\ PdfExtract.find_part_number_column (nth h table []) = Some c
        /\ forall j, j < h -> PdfExtract.find_part_number_column (nth j table []) = None
    | (None, None) => forall row, In row table -> PdfExtract.find_part_number_column row = None
    | _ => False
    end.
Proof.
  intros table. pose proof (find_header_row_from_spec table 0) as H.
  unfold PdfExtract.find_header_row.
  destruct (PdfExtract.find_header_row_from 0 table) as [[h|] [c|]]; try exact H.
  rewrite Nat.sub_0_r in H. destruct H as (Hh & Hc & Hb). split; [lia|]. split; assumption.
Qed.

(** ** Trimmed cells *)

Lemma rstrip_by_cons_nonempty (p : ascii -> bool) (c : ascii) (u : string) :
  Py.rstrip_by p u <> EmptyString ->
  Py.rstrip_by p (String c u) = String c (Py.rstrip_by p u).
Proof. intros H. simpl. destruct (Py.rstrip_by p u); [contradiction|reflexivity]. Qed.

Lemma rstrip_by_idem (p : ascii -> bool) (s : string) :
  Py.rstrip_by p (Py.rstrip_by p s) = Py.rstrip_by p s.
Proof.
  induction s as [|c t IH]; [reflexivity|].
  destruct (Py.rstrip_by p t) as [|c' t'] eqn:E.
  - simpl. rewrite E. destruct (p c) eqn:Hp; [reflexivity|]. simpl. rewrite Hp. reflexivity.
  - rewrite (rstrip_by_cons_nonempty p c t) by (rewrite E; discriminate). rewrite E.
    rewrite (rstrip_by_cons_nonempty p c) by (rewrite IH; discriminate). rewrite IH. reflexivity.
Qed.

Lemma rstrip_by_keep_head (p : ascii -> bool) (c : ascii) (t : string) :
  p c = false -> Py.rstrip_by p (String c t) = String c (Py.rstrip_by p t).
Proof.
  intros Hp. cbn [Py.rstrip_by]. destruct (Py.rstrip_by p t); [rewrite Hp|]; reflexivity.
Qed.

Lemma lstrip_by_head (p : ascii -> bool) (s : string) :
  Py.lstrip_by p s = EmptyString
  \/ exists c t, Py.lstrip_by p s = String c t /\ p c = false.
Proof.
  induction s as [|c t IH]; [left; reflexivity|]. cbn [Py.lstrip_by].
  destruct (p c) eqn:Hp; [exact IH|]. right. exists c, t. auto.
Qed.

Lemma strip_idem (s : string) : Py.strip (Py.strip s) = Py.strip s.
Proof.
  unfold Py.strip.
  destruct (lstrip_by_head Py.isspace s) as [E|(c & t & E & Hc)]; rewrite E; [reflexivity|].
  rewrite (rstrip_by_keep_head _ _ _ Hc). cbn [Py.lstrip_by]. rewrite Hc.
  rewrite (rstrip_by_keep_head _ _ _ Hc), rstrip_by_idem. reflexivity.
Qed.

Lemma get_cell_value_trimmed (row : PdfExtract.Row) (idx : option nat) :
  Py.strip (PdfExtract.get_cell_value row idx) = PdfExtract.get_cell_value row idx.
Proof.
  unfold PdfExtract.get_cell_value. destruct idx as [i|]; [|reflexivity].
  destruct (Datatypes.length row <=? i); [reflexivity|].
  destruct (nth i row None) as [v|]; [|reflexivity].
  destruct (Py.truthy v); [apply strip_idem|reflexivity].
Qed.

Lemma extract_rows_are_rows (table : PdfExtract.Table) (r : PdfExtract.PartRow) :
  In r (PdfExtract.extract_part_rows_from_table table) ->
  exists ci row, r = SpecWords.row_of ci row.
Proof.
  unfold PdfExtract.extract_part_rows_from_table.
  destruct (_ || _); [intros []|].
  destruct (PdfExtract.find_header_row table) as [[h|] [c|]]; try (intros []).
  rewrite emit_rows_filter. intros Hr. apply in_map_iff in Hr as (row & <- & _). eauto.
Qed.

(** Every field of every extracted row is trimmed: [strip()] leaves the
    part number, title, description, material, mass and quantity as they
    are. *)
Theorem extracted_fields_trimmed :
  forall (table : PdfExtract.Table) (r : PdfExtract.PartRow),
    In r (PdfExtract.extract_part_rows_from_table table) ->
    Forall (fun v => Py.strip v = v)
      [PdfExtract.part_number r; PdfExtract.title r; PdfExtract.description r;
       PdfExtract.material r; PdfExtract.mass r; PdfExtract.qty r].
Proof.
  intros table r Hr. apply extract_rows_are_rows in Hr as (ci & row & ->).
  repeat constructor; apply get_cell_value_trimmed.
Qed.

(** A table yields rows only if it has at least two rows and one of its
    rows has a part-number alias cell. *)
Theorem extract_rows_need_header :
  forall table : PdfExtract.Table,
    PdfExtract.extract_part_rows_from_table table <> [] ->
    2 <= List.length table
    /\ exists row, In row table /\ PdfExtract.find_part_number_column row <> None.
Proof.
  intros table Hne. pose proof (find_header_row_first table) as Hh.
  unfold PdfExtract.extract_part_rows_from_table in Hne.
  destruct (Nat.ltb_spec (List.length table) 2) as [Hl|Hl].
  - rewrite orb_true_r in Hne. contradiction.
  - split; [exact Hl|].
    destruct (PdfExtract.find_header_row table) as [[h|] [c|]];
      try (exfalso; exact Hh);
      try (exfalso; apply Hne; destruct (_ || _); reflexivity).
    destruct Hh as (Hlt & Hc & _). exists (nth h table []). split; [apply nth_In; exact Hlt|].
    rewrite Hc. discriminate.
Qed.

(** ** Revision tokens appended to a stem *)

Lemma lower_app (a b : string) : Py.lower (a ++ b) = (Py.lower a ++ Py.lower b)%string.
Proof. induction a as [|c a IH]; simpl; congruence. Qed.

Lemma lower_char_digit (c : ascii) : Rev.is_digit c = true -> Py.lower_char c = c.
Proof.
  unfold Rev.is_digit, Py.lower_char, Py.code. intros H.
  apply andb_prop in H as [_ H]. apply Nat.leb_le in H.
  destruct (Nat.leb_spec 65 (nat_of_ascii c)); [lia|].
  destruct (Nat.leb_spec 192 (nat_of_ascii c)); [lia|]. reflexivity.
Qed.

Lemma lower_digits (d : string) :
  forallb Rev.is_digit (list_ascii_of_string d) = true -> Py.lower d = d.
Proof.
  induction d as [|c d IH]; [reflexivity|]. simpl. intros H.
  apply andb_prop in H as [Hc Hd]. rewrite (lower_char_digit c Hc), (IH Hd). reflexivity.
Qed.

Lemma span_digits_all (d : string) :
  forallb Rev.is_digit (list_ascii_of_string d) = true -> Rev.span_digits d = (d, EmptyString).
Proof.
  induction d as [|c d IH]; [reflexivity|]. simpl. intros H.
  apply andb_prop in H as [Hc Hd]. rewrite Hc, (IH Hd). reflexivity.
Qed.

Lemma digits1_all (d : string) :
  d <> EmptyString -> forallb Rev.is_digit (list_ascii_of_string d) = true ->
  Rev.digits1 d = Some (d, EmptyString).
Proof.
  intros Hne Hd. unfold Rev.digits1. rewrite (span_digits_all d Hd).
  destruct d; [contradiction|reflexivity].
Qed.

Lemma digits1_app (u y : string) :
  Rev.digits1 u = None -> Rev.digits1 (u ++ String "_" y) = None.
Proof.
  unfold Rev.digits1. destruct u as [|c t]; [reflexivity|]. simpl.
  destruct (Rev.is_digit c).
  - destruct (Rev.span_digits t). discriminate.
  - reflexivity.
Qed.

Lemma match_at_not_us (c : ascii) (t : string) :
  Ascii.eqb c "_" = false -> Rev.match_at (String c t) = None.
Proof. destruct c as [[] [] [] [] [] [] [] []]; first [reflexivity | discriminate]. Qed.

Lemma match_at_us_not_r (d : ascii) (u : string) :
  Ascii.eqb d "r" = false -> Rev.match_at (String "_" (String d u)) = None.
Proof. destruct d as [[] [] [] [] [] [] [] []]; first [reflexivity | discriminate]. Qed.

Lemma match_at_ur_app (u y : string) :
  Rev.match_at (String "_" (String "r" u)) = None ->
  Rev.match_at (String "_" (String "r" (u ++ String "_" y))) = None.
Proof.
  unfold Rev.match_at. destruct u as [|e u']; [intros _; reflexivity|].
  destruct e as [[] [] [] [] [] [] [] []];
    try (intros H; exact (digits1_app _ y H)).
  destruct u' as [|v w]; [intros H; exact (digits1_app _ y H)|].
  destruct v as [[] [] [] [] [] [] [] []];
    try (intros H; exact (digits1_app _ y H)).
  destruct (Rev.digits1 w) eqn:Hw; [discriminate|]. intros H.
  cbn [String.append]. rewrite (digits1_app w y Hw). exact (digits1_app _ y H).
Qed.

Lemma match_at_app (p y : string) :
  p <> EmptyString -> Rev.match_at p = None ->
  Rev.match_at (p ++ String "_" y) = None.
Proof.
  intros Hp. destruct p as [|c r]; [contradiction|]. cbn [String.append].
  destruct (Ascii.eqb c "_") eqn:Ec; [|intros _; exact (match_at_not_us c _ Ec)].
  apply Ascii.eqb_eq in Ec. subst c. destruct r as [|d u]; [intros _; reflexivity|].
  cbn [String.append].
  destruct (Ascii.eqb d "r") eqn:Ed; [|intros _; exact (match_at_us_not_r d _ Ed)].
  apply Ascii.eqb_eq in Ed. subst d. apply match_at_ur_app.
Qed.

Lemma search_app (p y : string) :
  Rev.search p = None -> Rev.search (p ++ String "_" y) = Rev.search (String "_" y).
Proof.
  induction p as [|c t IH]; [reflexivity|]. intros H. cbn [Rev.search String.append] in *.
  destruct (Rev.match_at (String c t)) as [[d r]|] eqn:Em; [discriminate|].
  change (String c (t ++ String "_" y)) with (String c t ++ String "_" y)%string.
  rewrite (match_at_app (String c t) y ltac:(discriminate) Em). apply IH. exact H.
Qed.

Lemma sub_fuel_app (p y : string) (fuel : nat) :
  Rev.search p = None -> String.length p <= fuel ->
  Rev.sub_fuel fuel (p ++ String "_" y)
  = (p ++ Rev.sub_fuel (fuel - String.length p) (String "_" y))%string.
Proof.
  revert fuel. induction p as [|c t IH]; intros fuel H Hf; [rewrite Nat.sub_0_r; reflexivity|].
  destruct fuel as [|fuel]; [simpl in Hf; lia|].
  cbn [Rev.search] in H.
  destruct (Rev.match_at (String c t)) as [[d r]|] eqn:Em; [discriminate|].
  cbn [String.append Rev.sub_fuel].
  change (String c (t ++ String "_" y)) with (String c t ++ String "_" y)%string.
  rewrite (match_at_app (String c t) y ltac:(discriminate) Em).
  simpl in Hf. rewrite (IH fuel H ltac:(lia)). reflexivity.
Qed.

Lemma not_ev_digit (c : ascii) (w : string) :
  Rev.is_digit c = true ->
  match String c w with String "e" (String "v" u) => Rev.digits1 u | _ => None end = None.
Proof. destruct c as [[] [] [] [] [] [] [] []]; first [reflexivity | discriminate]. Qed.

Lemma match_at_token (L d : string) :
  (L = "rev" \/ L = "r") -> d <> EmptyString ->
  forallb Rev.is_digit (list_ascii_of_string d) = true ->
  Rev.match_at (String "_" (L ++ d)) = Some (d, EmptyString).
Proof.
  intros HL Hne Hd. destruct HL as [->| ->]; unfold Rev.match_at; cbn [String.append].
  - rewrite (digits1_all d Hne Hd). reflexivity.
  - destruct d as [|c w]; [contradiction|].
    assert (Hc : Rev.is_digit c = true) by (simpl in Hd; apply andb_prop in Hd; tauto).
    rewrite (not_ev_digit c w Hc). apply digits1_all; assumption.
Qed.

Lemma str_length_app (a b : string) :
  String.length (a ++ b) = String.length a + String.length b.
Proof. induction a as [|c a IH]; simpl; congruence. Qed.

Lemma sub_fuel_empty (fuel : nat) : Rev.sub_fuel fuel EmptyString = EmptyString.
Proof. destruct fuel; reflexivity. Qed.

(** Appending a revision token ["_rev"] or ["_r"] (in any letter case)
    and a run of digits to a stem that has no revision token makes
    [extract_revision_number] read that number, and leaves the grouping key
    of [get_base_name_without_revision] the one of the plain stem: the
    revisioned file falls in the group of the unrevisioned one. *)
Theorem revision_suffix_round_trip :
  forall s tok d : string,
    FileLookup.extract_revision_number s = None ->
    (Py.lower tok = "_rev" \/ Py.lower tok = "_r") ->
    d <> EmptyString ->
    forallb Rev.is_digit (list_ascii_of_string d) = true ->
    FileLookup.extract_revision_number (s ++ tok ++ d) = Some (Rev.int_of_digits d)
    /\ FileLookup.get_base_name_without_revision (s ++ tok ++ d)
       = FileLookup.get_base_name_without_revision s.
Proof.
  intros s tok d Hs Htok Hne Hd.
  assert (Hs' : Rev.search (Py.lower s) = None).
  { unfold FileLookup.extract_revision_number in Hs.
    destruct (Rev.search (Py.lower s)); [discriminate|reflexivity]. }
  assert (HL : exists L, (L = "rev" \/ L = "r") /\ Py.lower tok = String "_" L).
  { destruct Htok as [H|H]; [exists "rev"|exists "r"]; auto. }
  destruct HL as (L & HL & Htok').
  assert (Hlow : Py.lower (s ++ tok ++ d) = (Py.lower s ++ String "_" (L ++ d))%string).
  { rewrite !lower_app, Htok', (lower_digits d Hd). reflexivity. }
  pose proof (match_at_token L d HL Hne Hd) as Hm.
  unfold FileLookup.extract_revision_number, FileLookup.get_base_name_without_revision, Rev.sub.
  rewrite Hlow. split.
  - rewrite (search_app _ _ Hs'). cbn [Rev.search]. rewrite Hm. reflexivity.
  - rewrite (sub_fuel_no_match _ _ Hs').
    rewrite (sub_fuel_app _ _ _ Hs') by (rewrite str_length_app; lia).
    rewrite str_length_app, Nat.add_comm, Nat.add_sub.
    cbn [String.length Rev.sub_fuel]. rewrite Hm, sub_fuel_empty. apply str_app_nil_r.
Qed.

Lemma revision_suffix_round_trip_witness :
  FileLookup.extract_revision_number "Bracket-A2" = None
  /\ FileLookup.extract_revision_number ("Bracket-A2" ++ "_REV" ++ "12") = Some 12
  /\ FileLookup.get_base_name_without_revision ("Bracket-A2" ++ "_REV" ++ "12")
     = FileLookup.get_base_name_without_revision "Bracket-A2".
Proof.
  assert (H : FileLookup.extract_revision_number "Bracket-A2" = None) by reflexivity.
  destruct (revision_suffix_round_trip "Bracket-A2" "_REV" "12" H
              (or_introl eq_refl) ltac:(discriminate) eq_refl) as [H1 H2].
  split; [exact H|]. split; [exact H1|exact H2].
Defined.

(** ** Letter case of the query *)

Lemma lower_char_idem (c : ascii) : Py.lower_char (Py.lower_char c) = Py.lower_char c.
Proof. destruct c as [[] [] [] [] [] [] [] []]; reflexivity. Qed.

Lemma isspace_lower_char (c : ascii) : Py.isspace (Py.lower_char c) = Py.isspace c.
Proof. destruct c as [[] [] [] [] [] [] [] []]; reflexivity. Qed.

Lemma star_lower_char (c : ascii) :
  Ascii.eqb (Py.lower_char c) "*" = Ascii.eqb c "*".
Proof. destruct c as [[] [] [] [] [] [] [] []]; reflexivity. Qed.

Lemma lower_idem (s : string) : Py.lower (Py.lower s) = Py.lower s.
Proof. induction s as [|c s IH]; simpl; [reflexivity|]. rewrite lower_char_idem, IH. reflexivity. Qed.

Lemma lower_empty_iff (s : string) : Py.lower s = EmptyString <-> s = EmptyString.
Proof. destruct s; simpl; split; congruence. Qed.

Lemma lower_rstrip_by (p : ascii -> bool) (s : string) :
  (forall c, p (Py.lower_char c) = p c) ->
  Py.lower (Py.rstrip_by p s) = Py.rstrip_by p (Py.lower s).
Proof.
  intros Hp. induction s as [|c t IH]; [reflexivity|]. cbn [Py.lower].
  destruct (string_dec (Py.rstrip_by p t) EmptyString) as [E|E].
  - assert (E' : Py.rstrip_by p (Py.lower t) = EmptyString)
      by (rewrite <- IH, E; reflexivity).
    simpl. rewrite E, E', Hp. destruct (p c); reflexivity.
  - assert (E' : Py.rstrip_by p (Py.lower t) <> EmptyString)
      by (rewrite <- IH; intros H; apply (proj1 (lower_empty_iff _)) in H; contradiction).
    rewrite (rstrip_by_cons_nonempty p c t E).
    rewrite (rstrip_by_cons_nonempty p _ _ E'). cbn [Py.lower]. rewrite IH. reflexivity.
Qed.

Lemma lower_lstrip_by (p : ascii -> bool) (s : string) :
  (forall c, p (Py.lower_char c) = p c) ->
  Py.lower (Py.lstrip_by p s) = Py.lstrip_by p (Py.lower s).
Proof.
  intros Hp. induction s as [|c t IH]; [reflexivity|]. simpl. rewrite Hp.
  destruct (p c); [exact IH|reflexivity].
Qed.

Lemma lower_strip (s : string) : Py.lower (Py.strip s) = Py.strip (Py.lower s).
Proof.
  unfold Py.strip. rewrite lower_rstrip_by by exact isspace_lower_char.
  rewrite lower_lstrip_by by exact isspace_lower_char. reflexivity.
Qed.

Lemma lower_rstrip_star (s : string) : Py.lower (Py.rstrip_star s) = Py.rstrip_star (Py.lower s).
Proof. unfold Py.rstrip_star. apply lower_rstrip_by. exact star_lower_char. Qed.

Lemma normalized_key_lower (q : string) :
  normalize_for_match (Py.strip (Py.rstrip_star (Py.lower q)))
  = normalize_for_match (Py.strip (Py.rstrip_star q)).
Proof.
  unfold normalize_for_match. f_equal.
  rewrite lower_strip, lower_rstrip_star, lower_idem, <- lower_rstrip_star, <- lower_strip.
  reflexivity.
Qed.

Lemma substring_lower (n m : nat) (s : string) :
  substring n m (Py.lower s) = Py.lower (substring n m s).
Proof.
  revert n m. induction s as [|c s IH]; intros [|n] [|m]; simpl; try reflexivity.
  - rewrite IH. reflexivity.
  - apply IH.
  - apply IH.
Qed.

Lemma lower_length (s : string) : String.length (Py.lower s) = String.length s.
Proof. induction s; simpl; congruence. Qed.

Lemma eqb_lower_star (y : string) : String.eqb (Py.lower y) "*" = String.eqb y "*".
Proof.
  destruct (String.eqb_spec (Py.lower y) "*") as [E|E], (String.eqb_spec y "*") as [F|F];
    try reflexivity.
  - exfalso. apply F. destruct y as [|c r]; [discriminate|].
    cbn [Py.lower] in E. injection E as Ec Er.
    apply (proj1 (lower_empty_iff r)) in Er. subst r.
    pose proof (star_lower_char c) as H. rewrite Ec in H.
    symmetry in H. apply Ascii.eqb_eq in H. subst c. reflexivity.
  - exfalso. apply E. subst y. reflexivity.
Qed.

Lemma endswith_star_lower (s : string) :
  Py.endswith (Py.lower s) "*" = Py.endswith s "*".
Proof.
  unfold Py.endswith. rewrite lower_length, substring_lower, eqb_lower_star. reflexivity.
Qed.

(** The matcher ignores the letter case of the query: a lowercased query
    selects the same files, in the same order. *)
Theorem find_matching_files_case_insensitive :
  forall (q : string) (files : list Path) (mode : string) (exts : option (list string)),
    FileLookup.find_matching_files (Py.lower q) files mode exts
    = FileLookup.find_matching_files q files mode exts.
Proof.
  intros q files mode exts. unfold FileLookup.find_matching_files.
  rewrite normalized_key_lower. reflexivity.
Qed.

(** [lookup_part_number] ignores the letter case of the part number: a
    lowercased part number gives the same result. *)
Theorem lookup_part_number_case_insensitive :
  forall (pn : string) (files : list Path) (mode : string),
    FileLookup.lookup_part_number (Py.lower pn) files mode
    = FileLookup.lookup_part_number pn files mode.
Proof.
  intros pn files mode. unfold FileLookup.lookup_part_number.
  unfold Py.rstrip. rewrite <- (lower_rstrip_by Py.isspace pn isspace_lower_char).
  rewrite endswith_star_lower. unfold FileLookup.find_matching_files.
  rewrite normalized_key_lower. reflexivity.
Qed.

(** ** Empty results *)

Lemma process_group_nonempty (g : list Path) :
  g <> [] -> FileLookup.process_group (map CollapseView.item g) <> [].
Proof.
  intros Hg. destruct (sort_desc_spec (FileLookup.with_rev (map CollapseView.item g))) as [_ Hin].
  unfold FileLookup.process_group.
  destruct (FileLookup.sort_desc (FileLookup.with_rev (map CollapseView.item g)))
    as [|[r m] rest] eqn:E; [|discriminate].
  destruct (unrevisioned_items g) as [_ H2]; [|rewrite H2; exact Hg].
  intros p Hp. destruct (CollapseView.revision p) as [r|] eqn:Er; [|reflexivity].
  exfalso. assert (H : In (r, p) (FileLookup.with_rev (map CollapseView.item g))).
  { apply with_rev_in. apply in_map_iff. exists p. unfold CollapseView.item. rewrite Er. auto. }
  apply Hin in H. exact H.
Qed.

(** Collapsing to the latest revisions empties no list: the result is
    empty exactly when the input is.  So a part number whose query is not
    starred gets no PDF files, and the status "No PDF match", exactly when
    no PDF file matches it. *)
Theorem collapse_empty_iff :
  (forall files : list Path,
     FileLookup.collapse_to_latest_revision files = [] <-> files = [])
  /\ (forall (pn : string) (files : list Path) (mode : string),
        Py.endswith (Py.rstrip pn) "*" = false ->
        (FileLookup.pdf_files (FileLookup.lookup_part_number pn files mode) = []
         <-> FileLookup.find_matching_files pn files mode (Some FileLookup.pdf_exts) = [])
        /\ (FileLookup.status (FileLookup.lookup_part_number pn files mode) = "No PDF match"
            <-> FileLookup.find_matching_files pn files mode (Some FileLookup.pdf_exts) = [])).
Proof.
  assert (Hc : forall files : list Path,
             FileLookup.collapse_to_latest_revision files = [] <-> files = []).
  { intros files. split; [|intros ->; reflexivity].
    intros H. destruct files as [|f fs]; [reflexivity|exfalso].
    pose proof (members_collapse (CollapseView.base_key f) (f :: fs)) as Hm.
    rewrite H in Hm. symmetry in Hm. revert Hm. apply process_group_nonempty.
    unfold CollapseView.members. simpl. rewrite String.eqb_refl. discriminate. }
  split; [exact Hc|]. intros pn files mode Hs.
  unfold FileLookup.lookup_part_number. rewrite Hs. cbn [FileLookup.pdf_files FileLookup.status].
  rewrite <- (Hc (FileLookup.find_matching_files pn files mode (Some FileLookup.pdf_exts))).
  split; [reflexivity|].
  destruct (FileLookup.collapse_to_latest_revision _) as [|p ps]; [tauto|].
  split; [|discriminate]. intros H. exfalso.
  (* "No PDF match" does not end with " PDF(s)". *)
  assert (Hsuf : forall x : string,
             (x ++ " PDF(s)")%string <> "No PDF match").
  { intros x Hx.
    assert (Hlx : String.length x = 5)
      by (apply (f_equal String.length) in Hx; rewrite str_length_app in Hx; simpl in Hx; lia).
    destruct x as [|a [|b [|c [|d [|e [|]]]]]]; try discriminate Hlx.
    cbn in Hx. injection Hx as -> -> -> -> -> Hrest. discriminate Hrest. }
  exact (Hsuf _ H).
Qed.

(** ** Header-like values *)

(** [_is_header_like] ignores letter case and the whitespace around the
    value. *)
Theorem is_header_like_ignores_case_and_padding :
  forall v : string,
    PdfExtract.is_header_like (Py.lower v) = PdfExtract.is_header_like v
    /\ PdfExtract.is_header_like (Py.strip v) = PdfExtract.is_header_like v.
Proof.
  intros v. unfold PdfExtract.is_header_like. split.
  - rewrite lower_idem. reflexivity.
  - rewrite <- (lower_strip (Py.strip v)), strip_idem, lower_strip. reflexivity.
Qed.

(** ** Instances of the properties above *)

Lemma extracted_fields_trimmed_witness :
  In {| PdfExtract.part_number := "A1"; PdfExtract.title := "Bolt";
        PdfExtract.description := ""; PdfExtract.material := "";
        PdfExtract.mass := ""; PdfExtract.qty := "" |}
     (PdfExtract.extract_part_rows_from_table
        [[Some "PART NO"; Some "TITLE"]; [Some " A1 "; Some " Bolt "]])
  /\ Py.strip "Bolt" = "Bolt".
Proof.
  assert (H : In {| PdfExtract.part_number := "A1"; PdfExtract.title := "Bolt";
                    PdfExtract.description := ""; PdfExtract.material := "";
                    PdfExtract.mass := ""; PdfExtract.qty := "" |}
                 (PdfExtract.extract_part_rows_from_table
                    [[Some "PART NO"; Some "TITLE"]; [Some " A1 "; Some " Bolt "]]))
    by (vm_compute; left; reflexivity).
  split; [exact H|].
  pose proof (extracted_fields_trimmed _ _ H) as HF.
  inversion HF as [|? ? _ HF1]. inversion HF1 as [|? ? Ht _]. exact Ht.
Defined.

Lemma extract_rows_need_header_witness :
  PdfExtract.extract_part_rows_from_table
    [[Some "PART NO"; Some "TITLE"]; [Some " A1 "; Some " Bolt "]] <> []
  /\ 2 <= List.length [[Some "PART NO"; Some "TITLE"]; [Some " A1 "; Some " Bolt "]].
Proof.
  assert (H : PdfExtract.extract_part_rows_from_table
                [[Some "PART NO"; Some "TITLE"]; [Some " A1 "; Some " Bolt "]] <> [])
    by (vm_compute; discriminate).
  split; [exact H|exact (proj1 (extract_rows_need_header _ H))].
Defined.

Lemma first_table_rows_spec_witness :
  Documents.first_table_rows
    [[[Some "PN"]]; [[Some "PART NO"; Some "TITLE"]; [Some " A1 "; Some " Bolt "]]]
  = PdfExtract.extract_part_rows_from_table
      [[Some "PART NO"; Some "TITLE"]; [Some " A1 "; Some " Bolt "]].
Proof.
  apply (proj2 first_table_rows_spec [[[Some "PN"]]]
           [[Some "PART NO"; Some "TITLE"]; [Some " A1 "; Some " Bolt "]] []).
  - intros u [<-|[]]. reflexivity.
  - vm_compute. discriminate.
Defined.

Lemma collapse_empty_iff_witness :
  Py.endswith (Py.rstrip "ABC") "*" = false
  /\ (FileLookup.pdf_files
        (FileLookup.lookup_part_number "ABC" [["d"; "ABC_r2.pdf"]; ["d"; "ABC.ipt"]] "contains")
      = []
      <-> FileLookup.find_matching_files "ABC" [["d"; "ABC_r2.pdf"]; ["d"; "ABC.ipt"]]
            "contains" (Some FileLookup.pdf_exts) = []).
Proof.
  assert (H : Py.endswith (Py.rstrip "ABC") "*" = false) by reflexivity.
  split; [exact H|].
  exact (proj1 (proj2 collapse_empty_iff "ABC" [["d"; "ABC_r2.pdf"]; ["d"; "ABC.ipt"]]
                  "contains" H)).
Defined.

Lemma batch_entries_witness :
  PyDict.get
    (Documents.extract_part_numbers_batch
       (fun p => if String.eqb (name p) "a.pdf" then Documents.Returned ["X12"]
                 else Documents.Raised)
       [["d"; "a.pdf"]; ["d"; "b.pdf"]])
    "a.pdf"
  = Some ["X12"].
Proof.
  apply (proj2 (proj2 (batch_entries
           (fun p => if String.eqb (name p) "a.pdf" then Documents.Returned ["X12"]
                     else Documents.Raised)
           [["d"; "a.pdf"]; ["d"; "b.pdf"]]))
           [] ["d"; "a.pdf"] [["d"; "b.pdf"]]).
  - reflexivity.
  - intros q [<-|[]]. discriminate.
Defined.

(** ** The extraction worker *)

(** For a PDF whose rows were extracted, the worker's dict has one entry
    per distinct part number of the rows; the entry of a part number holds
    the last row carrying it and the result of [lookup_part_number] for it
    over the scanned files in mode "contains".  A PDF whose extraction
    raised gets the single entry ["ERROR"]. *)
Theorem worker_matches_entries :
  forall (files : list Path) (rows : list PdfExtract.PartRow),
    let m := App.pdf_matches files (App.RowsReturned rows) in
    NoDup (map fst m)
    /\ (forall k, In k (map fst m) <-> In k (map PdfExtract.part_number rows))
    /\ (forall pre r post, rows = pre ++ r :: post ->
          (forall r', In r' post -> PdfExtract.part_number r' <> PdfExtract.part_number r) ->
          PyDict.get m (PdfExtract.part_number r)
          = Some (Some r, FileLookup.lookup_part_number (PdfExtract.part_number r) files "contains"))
    /\ App.pdf_matches files App.RowsRaised = [("ERROR", App.error_entry)].
Proof.
  intros files rows m.
  set (val := fun r : PdfExtract.PartRow =>
                (Some r, FileLookup.lookup_part_number (PdfExtract.part_number r) files "contains")).
  change m with (fold_left (dict_step PdfExtract.part_number val) rows []).
  split; [apply nodup_loop; constructor|]. split; [|split; [|reflexivity]].
  - intros k. rewrite keys_loop. simpl. tauto.
  - intros pre r post -> Hpost. rewrite get_loop, fold_left_app. simpl.
    rewrite String.eqb_refl. apply fold_last_unchanged. exact Hpost.
Qed.

Lemma worker_matches_entries_witness :
  PyDict.get
    (App.pdf_matches [["d"; "A1.pdf"]]
       (App.RowsReturned
          [{| PdfExtract.part_number := "A1"; PdfExtract.title := "Bolt";
              PdfExtract.description := ""; PdfExtract.material := "";
              PdfExtract.mass := ""; PdfExtract.qty := "" |}]))
    "A1"
  = Some (Some {| PdfExtract.part_number := "A1"; PdfExtract.title := "Bolt";
                  PdfExtract.description := ""; PdfExtract.material := "";
                  PdfExtract.mass := ""; PdfExtract.qty := "" |},
          FileLookup.lookup_part_number "A1" [["d"; "A1.pdf"]] "contains").
Proof.
  apply (proj1 (proj2 (proj2 (worker_matches_entries [["d"; "A1.pdf"]]
           [{| PdfExtract.part_number := "A1"; PdfExtract.title := "Bolt";
               PdfExtract.description := ""; PdfExtract.material := "";
               PdfExtract.mass := ""; PdfExtract.qty := "" |}])))
           []
           {| PdfExtract.part_number := "A1"; PdfExtract.title := "Bolt";
              PdfExtract.description := ""; PdfExtract.material := "";
              PdfExtract.mass := ""; PdfExtract.qty := "" |}
           []); [reflexivity|].
  intros r' [].
Defined.

Lemma display_lines_error_in (matches : list (string * (option PdfExtract.PartRow * FileLookup.MatchResult))) :
  matches <> [] ->
  (In App.ErrorLine (App.display_lines matches) <-> In "ERROR" (map fst matches)).
Proof.
  intros Hne. destruct matches as [|e0 es]; [contradiction|].
  change (App.display_lines (e0 :: es))
    with (map (fun e => let '(part_number, (part_row, mr)) := e in
                 if String.eqb part_number "ERROR" then App.ErrorLine
                 else App.PartLine [part_number; App.row_field PdfExtract.title part_row;
                                    App.row_field PdfExtract.description part_row;
                                    App.row_field PdfExtract.mass part_row;
                                    App.row_field PdfExtract.qty part_row;
                                    App.pdf_display mr; App.print_display mr;
                                    FileLookup.status mr; App.model_display mr])
              (e0 :: es)).
  generalize (e0 :: es). intros l. rewrite in_map_iff, in_map_iff. split.
  - intros ([k [row mr]] & He & Hin). exists (k, (row, mr)). split; [|exact Hin].
    simpl. destruct (String.eqb_spec k "ERROR") as [->|_]; [reflexivity|discriminate].
  - intros ([k [row mr]] & Hk & Hin). simpl in Hk. subst k.
    exists ("ERROR", (row, mr)). split; [reflexivity|exact Hin].
Qed.

(** In the results view, a PDF whose extraction raised shows the single
    line "Error processing PDF"; a PDF whose extraction returned rows
    shows "No tables found" exactly when there are no rows, and shows the
    line "Error processing PDF" exactly when one of its rows has the part
    number "ERROR". *)
Theorem display_error_line :
  forall (files : list Path) (rows : list PdfExtract.PartRow),
    App.display_lines (App.pdf_matches files App.RowsRaised) = [App.ErrorLine]
    /\ (App.display_lines (App.pdf_matches files (App.RowsReturned rows)) = [App.NoTablesLine]
        <-> rows = [])
    /\ (In App.ErrorLine (App.display_lines (App.pdf_matches files (App.RowsReturned rows)))
        <-> exists r, In r rows /\ PdfExtract.part_number r = "ERROR").
Proof.
  intros files rows. split; [reflexivity|].
  set (val := fun r : PdfExtract.PartRow =>
                (Some r, FileLookup.lookup_part_number (PdfExtract.part_number r) files "contains")).
  assert (Hm : App.pdf_matches files (App.RowsReturned rows)
               = fold_left (dict_step PdfExtract.part_number val) rows []) by reflexivity.
  rewrite Hm.
  assert (Hkeys : forall k, In k (map fst (fold_left (dict_step PdfExtract.part_number val) rows []))
                            <-> In k (map PdfExtract.part_number rows))
    by (intros k; rewrite keys_loop; simpl; tauto).
  destruct rows as [|r0 rs].
  - split; [tauto|]. simpl. split; [intros [H|[]]; discriminate|intros (r & [] & _)].
  - assert (Hne : fold_left (dict_step PdfExtract.part_number val) (r0 :: rs) [] <> []).
    { intros E. specialize (Hkeys (PdfExtract.part_number r0)). rewrite E in Hkeys.
      simpl in Hkeys. apply Hkeys. left. reflexivity. }
    split.
    + split; [|discriminate]. intros E.
      assert (Hin : In App.NoTablesLine
                      (App.display_lines (fold_left (dict_step PdfExtract.part_number val) (r0 :: rs) [])))
        by (rewrite E; left; reflexivity).
      exfalso. revert Hin Hne.
      destruct (fold_left (dict_step PdfExtract.part_number val) (r0 :: rs) []) as [|e es];
        [intros _ H; apply H; reflexivity|intros Hin _].
      change (In App.NoTablesLine
                (map (fun e => let '(part_number, (part_row, mr)) := e in
                        if String.eqb part_number "ERROR" then App.ErrorLine
                        else App.PartLine [part_number; App.row_field PdfExtract.title part_row;
                                           App.row_field PdfExtract.description part_row;
                                           App.row_field PdfExtract.mass part_row;
                                           App.row_field PdfExtract.qty part_row;
                                           App.pdf_display mr; App.print_display mr;
                                           FileLookup.status mr; App.model_display mr])
                     (e :: es))) in Hin.
      apply in_map_iff in Hin as ([k [row mr]] & Hk & _). simpl in Hk.
      destruct (String.eqb k "ERROR"); discriminate.
    + rewrite (display_lines_error_in _ Hne), Hkeys, in_map_iff.
      split; intros (r & H1 & H2); exists r; auto.
Qed.

Lemma display_error_line_witness :
  In App.ErrorLine
     (App.display_lines
        (App.pdf_matches [] (App.RowsReturned
           [{| PdfExtract.part_number := "ERROR"; PdfExtract.title := "";
               PdfExtract.description := ""; PdfExtract.material := "";
               PdfExtract.mass := ""; PdfExtract.qty := "" |}]))).
Proof.
  apply (proj2 (proj2 (proj2 (display_error_line []
           [{| PdfExtract.part_number := "ERROR"; PdfExtract.title := "";
               PdfExtract.description := ""; PdfExtract.material := "";
               PdfExtract.mass := ""; PdfExtract.qty := "" |}])))).
  eexists. split; [left; reflexivity|reflexivity].
Defined.

(** ** The amended grouping key *)

(** C5 (amended): the grouping key is the lowercased stem with the
    revision tokens removed and nothing else changed.  A stem [t] without
    a revision token is grouped under its plain lowercase form, its spaces,
    hyphens and underscores kept; and the same stem followed by a revision
    token ["_rev"] or ["_r"] (in any letter case) and digits is grouped
    under that same lowercase form of [t].  So stems that differ in those
    characters outside the token get different keys. *)
Theorem base_key_is_lowercased_stem :
  forall t : string,
    FileLookup.extract_revision_number t = None ->
    FileLookup.get_base_name_without_revision t = Py.lower t
    /\ forall tok d : string,
         (Py.lower tok = "_rev" \/ Py.lower tok = "_r") ->
         d <> EmptyString ->
         forallb Rev.is_digit (list_ascii_of_string d) = true ->
         FileLookup.get_base_name_without_revision (t ++ tok ++ d) = Py.lower t.
Proof.
  intros t Ht.
  assert (Ht' : Rev.search (Py.lower t) = None).
  { unfold FileLookup.extract_revision_number in Ht.
    destruct (Rev.search (Py.lower t)); [discriminate|reflexivity]. }
  unfold FileLookup.get_base_name_without_revision, Rev.sub.
  split; [apply sub_fuel_no_match; exact Ht'|].
  intros tok d Htok Hne Hd.
  assert (HL : exists L, (L = "rev" \/ L = "r") /\ Py.lower tok = String "_" L).
  { destruct Htok as [H|H]; [exists "rev"|exists "r"]; auto. }
  destruct HL as (L & HL & Htok').
  assert (Hlow : Py.lower (t ++ tok ++ d) = (Py.lower t ++ String "_" (L ++ d))%string).
  { rewrite !lower_app, Htok', (lower_digits d Hd). reflexivity. }
  rewrite Hlow.
  rewrite (sub_fuel_app _ _ _ Ht') by (rewrite str_length_app; lia).
  rewrite str_length_app, Nat.add_comm, Nat.add_sub.
  cbn [String.length Rev.sub_fuel]. rewrite (match_at_token L d HL Hne Hd), sub_fuel_empty.
  apply str_app_nil_r.
Qed.

Lemma base_key_is_lowercased_stem_witness :
  FileLookup.extract_revision_number "Part A-1_final" = None
  /\ FileLookup.get_base_name_without_revision "Part A-1_final" = "part a-1_final"
  /\ FileLookup.get_base_name_without_revision ("Part A-1_final" ++ "_Rev" ++ "3")
     = "part a-1_final".
Proof.
  assert (H : FileLookup.extract_revision_number "Part A-1_final" = None) by reflexivity.
  destruct (base_key_is_lowercased_stem "Part A-1_final" H) as [H1 H2].
  split; [exact H|]. split; [exact H1|].
  apply (H2 "_Rev" "3"); [left; reflexivity|discriminate|reflexivity].
Defined.
